(** * Water-quality dashboard: validation, geocoding fallback, record store
      and per-zipcode aggregation

    Shallow embedding of the pipeline implemented by the three Streamlit
    pages [2_Manual_Input.py], [Home_page.py] and [3_OrgUseData_Dashboard.py].

    Python floats are IEEE-754 binary64 numbers; they are modelled by
    [spec_float] with the comparison [SFcompare] of the Standard Library, and
    given a meaning as rational numbers by [F2Q]. *)

From Stdlib Require Import ZArith QArith Bool List Lia.
From Stdlib Require Import Ascii String.
From Stdlib Require Import SpecFloat.
From Stdlib Require Import Sorted OrderedTypeEx.
Import ListNotations.

Local Open Scope Z_scope.

(* ===================================================================== *)
(** * Binary64 numbers and their order *)
(* ===================================================================== *)

Module Float64.

Definition prec : Z := 53.
Definition emax : Z := 1024.

Definition float := spec_float.

(** A well-formed binary64 number: the mantissa is canonical for its
    exponent. Every Python float satisfies it. *)
Definition is_float (x : float) : bool := valid_binary prec emax x.

(** [x * 2^1074] for a finite [x]: an integer, since the least binary64
    exponent is [-1074]. *)
Definition scaled (x : float) : Z :=
  match x with
  | S754_finite s m e => (if s then Z.neg m else Z.pos m) * 2 ^ (e + 1074)
  | _ => 0
  end.

Definition denom : positive := (2 ^ 1074)%positive.

(** The rational number [scaled x / 2^1074]. *)
Definition value (x : float) : Q := Qmake (scaled x) denom.

(** The rational number denoted by a finite float; [None] for NaN and the
    infinities. *)
Definition F2Q (x : float) : option Q :=
  match x with
  | S754_zero _ | S754_finite _ _ _ => Some (value x)
  | _ => None
  end.

Definition is_finite (x : float) : bool :=
  match x with
  | S754_zero _ | S754_finite _ _ _ => true
  | _ => false
  end.

(** Membership of a float in the closed rational interval [[lo, hi]]. *)
Definition in_interval (lo hi : Q) (x : float) : Prop :=
  match F2Q x with
  | Some q => (lo <= q)%Q /\ (q <= hi)%Q
  | None => False
  end.

(** Python's chained comparison [lo <= x <= hi]. *)
Definition between (lo hi x : float) : bool :=
  SFleb lo x && SFleb x hi.

(** The literals of the source, as binary64 numbers. *)
Definition f0 : float := S754_zero false.
Definition f5 : float := S754_finite false 5629499534213120 (-50).
Definition f6_5 : float := S754_finite false 7318349394477056 (-50).
Definition f8_5 : float := S754_finite false 4785074604081152 (-49).
Definition f10 : float := S754_finite false 5629499534213120 (-49).
Definition f14 : float := S754_finite false 7881299347898368 (-49).
Definition pos_inf : float := S754_infinity false.

(** Further numbers used in examples. *)
Definition f1 : float := S754_finite false 4503599627370496 (-52).
Definition f6 : float := S754_finite false 6755399441055744 (-50).
Definition f7 : float := S754_finite false 7881299347898368 (-50).
Definition f8 : float := S754_finite false 4503599627370496 (-49).
Definition f9 : float := S754_finite false 5066549580791808 (-49).
Definition f12 : float := S754_finite false 6755399441055744 (-49).
Definition f20 : float := S754_finite false 5629499534213120 (-48).
Definition fm1 : float := S754_finite true 4503599627370496 (-52).
Definition nan : float := S754_nan.
Definition neg_inf : float := S754_infinity true.
Definition f0_1 : float := S754_finite false 7205759403792794 (-56).
Definition f3 : float := S754_finite false 6755399441055744 (-51).
Definition f6_9 : float := S754_finite false 7768709357214106 (-50).
Definition f7_2 : float := S754_finite false 8106479329266893 (-50).
Definition f7_5 : float := S754_finite false 8444249301319680 (-50).
Definition f8_2 : float := S754_finite false 4616189618054758 (-49).
Definition f9_9 : float := S754_finite false 5573204538870989 (-49).
(** [1e-9] and [-1e-10]. *)
Definition f1e_9 : float := S754_finite false 4835703278458517 (-82).
Definition fm1e_10 : float := S754_finite true 7737125245533627 (-86).

Definition is_nan (x : float) : bool :=
  match x with
  | S754_nan => true
  | _ => false
  end.

Definition is_inf (x : float) : bool :=
  match x with
  | S754_infinity _ => true
  | _ => false
  end.

(** The four operations, rounded to nearest even. *)
Definition add : float -> float -> float := SFadd prec emax.
Definition sub : float -> float -> float := SFsub prec emax.
Definition mul : float -> float -> float := SFmul prec emax.
Definition div : float -> float -> float := SFdiv prec emax.

(** A count as a float. *)
Definition of_nat (n : nat) : float :=
  binary_normalize prec emax (Z.of_nat n) 0 false.

(** [x < lo or x > hi], as two comparisons. *)
Definition outside (lo hi x : float) : bool :=
  SFltb x lo || SFltb hi x.


(** A float constant [c] denotes the rational [q]. *)
Definition denotes (c : float) (q : Q) : Prop :=
  is_float c = true /\ is_finite c = true /\ (value c == q)%Q.

(** ** Size of a canonical mantissa *)

Lemma digits2_pos_bounds (m : positive) :
  2 ^ (Z.pos (digits2_pos m) - 1) <= Z.pos m < 2 ^ Z.pos (digits2_pos m).
Proof.
  induction m as [p IH | p IH | ]; cbn [digits2_pos].
  - rewrite Pos2Z.inj_succ.
    replace (Z.succ (Z.pos (digits2_pos p)) - 1)
      with (Z.succ (Z.pos (digits2_pos p) - 1)) by lia.
    rewrite !Z.pow_succ_r by lia. lia.
  - rewrite Pos2Z.inj_succ.
    replace (Z.succ (Z.pos (digits2_pos p)) - 1)
      with (Z.succ (Z.pos (digits2_pos p) - 1)) by lia.
    rewrite !Z.pow_succ_r by lia. lia.
  - cbn. lia.
Qed.

Lemma bounded_range (m : positive) (e : Z) :
  bounded prec emax m e = true ->
  -1074 <= e <= 971 /\ Z.pos m < 2 ^ 53 /\ (-1074 < e -> 2 ^ 52 <= Z.pos m).
Proof.
  unfold bounded, canonical_mantissa, fexp, emin, prec, emax.
  intros H. apply andb_true_iff in H. destruct H as [Hc He].
  apply Z.eqb_eq in Hc. apply Z.leb_le in He.
  pose proof (digits2_pos_bounds m) as [Hlo Hhi].
  set (d := Z.pos (digits2_pos m)) in *.
  assert (Hd : 0 < d) by (unfold d; lia).
  split; [lia|]. split.
  - apply Z.lt_le_trans with (1 := Hhi).
    apply Z.pow_le_mono_r; lia.
  - intros Hn. assert (d = 53) by lia.
    replace (d - 1) with 52 in Hlo by lia. exact Hlo.
Qed.

(** ** Comparison of positive finite numbers *)

Lemma mul_compare_pos_r (a b p : Z) :
  0 < p -> (a * p ?= b * p) = (a ?= b).
Proof.
  intros Hp. destruct (Z.compare_spec a b) as [Heq | Hlt | Hgt].
  - subst b. apply Z.compare_refl.
  - apply Z.compare_lt_iff. now apply Z.mul_lt_mono_pos_r.
  - apply Z.compare_gt_iff. now apply Z.mul_lt_mono_pos_r.
Qed.

Lemma scaled_lt_of_exp_lt (m1 m2 : positive) (e1 e2 : Z) :
  bounded prec emax m1 e1 = true ->
  bounded prec emax m2 e2 = true ->
  e1 < e2 ->
  Z.pos m1 * 2 ^ (e1 + 1074) < Z.pos m2 * 2 ^ (e2 + 1074).
Proof.
  intros H1 H2 Hlt.
  apply bounded_range in H1. destruct H1 as (Hr1 & Hm1 & _).
  apply bounded_range in H2. destruct H2 as (Hr2 & _ & Hm2).
  specialize (Hm2 ltac:(lia)).
  set (a := e1 + 1074) in *.
  replace (e2 + 1074) with (a + (e2 - e1)) by (unfold a; lia).
  assert (Ha : 0 <= a) by (unfold a; lia).
  rewrite Z.pow_add_r by lia.
  assert (Hp : 0 < 2 ^ a) by (apply Z.pow_pos_nonneg; lia).
  assert (Hk : 2 <= 2 ^ (e2 - e1)).
  { change 2 with (2 ^ 1) at 1. apply Z.pow_le_mono_r; lia. }
  assert (Hs : Z.pos m1 < Z.pos m2 * 2 ^ (e2 - e1)).
  { apply Z.lt_le_trans with (2 ^ 52 * 2); [exact Hm1|].
    apply Z.mul_le_mono_nonneg; lia. }
  replace (Z.pos m2 * (2 ^ a * 2 ^ (e2 - e1)))
    with (Z.pos m2 * 2 ^ (e2 - e1) * 2 ^ a) by ring.
  apply Z.mul_lt_mono_pos_r; assumption.
Qed.

Lemma compare_pos_finite (m1 m2 : positive) (e1 e2 : Z) :
  bounded prec emax m1 e1 = true ->
  bounded prec emax m2 e2 = true ->
  match e1 ?= e2 with
  | Lt => Lt
  | Gt => Gt
  | Eq => Pos.compare_cont Eq m1 m2
  end = (Z.pos m1 * 2 ^ (e1 + 1074) ?= Z.pos m2 * 2 ^ (e2 + 1074)).
Proof.
  intros H1 H2. destruct (Z.compare_spec e1 e2) as [Heq | Hlt | Hgt].
  - subst e2. apply bounded_range in H1. destruct H1 as (Hr & _ & _).
    assert (Hp : 0 < 2 ^ (e1 + 1074)) by (apply Z.pow_pos_nonneg; lia).
    rewrite mul_compare_pos_r by exact Hp. reflexivity.
  - symmetry. apply Z.compare_lt_iff. now apply scaled_lt_of_exp_lt.
  - symmetry. apply Z.compare_gt_iff. now apply scaled_lt_of_exp_lt.
Qed.

(** ** [SFcompare] is the order of the denoted numbers *)

Lemma SFcompare_scaled (x y : float) :
  is_float x = true -> is_float y = true ->
  is_finite x = true -> is_finite y = true ->
  SFcompare x y = Some (scaled x ?= scaled y).
Proof.
  destruct x as [sx | sx | | sx mx ex]; try discriminate;
    destruct y as [sy | sy | | sy my ey]; try discriminate;
    unfold is_float; cbn [valid_binary is_finite scaled SFcompare];
    intros Hx Hy _ _.
  - reflexivity.
  - apply bounded_range in Hy. destruct Hy as (Hr & _ & _).
    assert (Hp : 0 < 2 ^ (ey + 1074)) by (apply Z.pow_pos_nonneg; lia).
    f_equal. symmetry. destruct sy.
    + apply Z.compare_gt_iff. apply Z.mul_neg_pos; [lia | exact Hp].
    + apply Z.compare_lt_iff. apply Z.mul_pos_pos; [lia | exact Hp].
  - apply bounded_range in Hx. destruct Hx as (Hr & _ & _).
    assert (Hp : 0 < 2 ^ (ex + 1074)) by (apply Z.pow_pos_nonneg; lia).
    f_equal. symmetry. destruct sx.
    + apply Z.compare_lt_iff. apply Z.mul_neg_pos; [lia | exact Hp].
    + apply Z.compare_gt_iff. apply Z.mul_pos_pos; [lia | exact Hp].
  - pose proof (compare_pos_finite mx my ex ey Hx Hy) as Hc.
    pose proof (compare_pos_finite my mx ey ex Hy Hx) as Hc'.
    apply bounded_range in Hx. destruct Hx as (Hrx & _ & _).
    apply bounded_range in Hy. destruct Hy as (Hry & _ & _).
    assert (Hpx : 0 < 2 ^ (ex + 1074)) by (apply Z.pow_pos_nonneg; lia).
    assert (Hpy : 0 < 2 ^ (ey + 1074)) by (apply Z.pow_pos_nonneg; lia).
    f_equal. destruct sx, sy.
    + (* both negative: the order of the magnitudes, reversed *)
      rewrite <- !Pos2Z.opp_pos, !Z.mul_opp_l, Z.compare_opp.
      rewrite <- Hc', (Z.compare_antisym ex ey).
      rewrite (Pos.compare_cont_antisym mx my Eq).
      destruct (ex ?= ey); reflexivity.
    + symmetry. apply Z.compare_lt_iff.
      apply Z.lt_trans with 0;
        [apply Z.mul_neg_pos | apply Z.mul_pos_pos]; lia.
    + symmetry. apply Z.compare_gt_iff.
      apply Z.lt_trans with 0;
        [apply Z.mul_neg_pos | apply Z.mul_pos_pos]; lia.
    + exact Hc.
Qed.

Lemma Qle_scaled (a b : Z) :
  (Qmake a denom <= Qmake b denom)%Q <-> a <= b.
Proof.
  unfold Qle; cbn [Qnum Qden]. split; intros H.
  - apply Z.mul_le_mono_pos_r in H; [exact H | reflexivity].
  - apply Z.mul_le_mono_pos_r; [reflexivity | exact H].
Qed.

Lemma Qlt_scaled (a b : Z) :
  (Qmake a denom < Qmake b denom)%Q <-> a < b.
Proof.
  unfold Qlt; cbn [Qnum Qden]. split; intros H.
  - apply Z.mul_lt_mono_pos_r in H; [exact H | reflexivity].
  - apply Z.mul_lt_mono_pos_r; [reflexivity | exact H].
Qed.

Lemma SFleb_scaled (x y : float) :
  is_float x = true -> is_float y = true ->
  is_finite x = true -> is_finite y = true ->
  SFleb x y = true <-> scaled x <= scaled y.
Proof.
  intros Vx Vy Fx Fy. unfold SFleb.
  rewrite (SFcompare_scaled x y Vx Vy Fx Fy).
  destruct (Z.compare_spec (scaled x) (scaled y)); split; intros; 
    try reflexivity; try discriminate; lia.
Qed.

Lemma SFltb_scaled (x y : float) :
  is_float x = true -> is_float y = true ->
  is_finite x = true -> is_finite y = true ->
  SFltb x y = true <-> scaled x < scaled y.
Proof.
  intros Vx Vy Fx Fy. unfold SFltb.
  rewrite (SFcompare_scaled x y Vx Vy Fx Fy).
  destruct (Z.compare_spec (scaled x) (scaled y)); split; intros; 
    try reflexivity; try discriminate; lia.
Qed.

Lemma in_interval_scaled (lo hi : Q) (clo chi x : float) :
  denotes clo lo -> denotes chi hi ->
  in_interval lo hi x <->
  is_finite x = true /\ scaled clo <= scaled x /\ scaled x <= scaled chi.
Proof.
  intros (_ & _ & Hlo) (_ & _ & Hhi). unfold in_interval.
  destruct x as [s | s | | s m e]; cbn [F2Q is_finite].
  - rewrite <- Hlo, <- Hhi. unfold value. rewrite !Qle_scaled. intuition.
  - intuition discriminate.
  - intuition discriminate.
  - rewrite <- Hlo, <- Hhi. unfold value. rewrite !Qle_scaled. intuition.
Qed.

(** The chained comparison [lo <= x <= hi] of the source decides membership
    in the interval, for every binary64 number including NaN and the
    infinities. *)
Lemma between_spec (lo hi : Q) (clo chi x : float) :
  denotes clo lo -> denotes chi hi -> is_float x = true ->
  between clo chi x = true <-> in_interval lo hi x.
Proof.
  intros Dlo Dhi Vx.
  rewrite (in_interval_scaled lo hi clo chi x Dlo Dhi).
  destruct Dlo as (Vlo & Flo & _), Dhi as (Vhi & Fhi & _).
  unfold between. rewrite andb_true_iff.
  destruct (is_finite x) eqn:Fx.
  - rewrite (SFleb_scaled clo x), (SFleb_scaled x chi) by assumption.
    intuition.
  - split; [|intros [? _]; discriminate].
    intros [H1 H2]. exfalso.
    destruct x as [s | s | | s m e]; try discriminate Fx.
    + destruct s.
      * destruct clo; try discriminate Flo; discriminate H1.
      * destruct chi; try discriminate Fhi; discriminate H2.
    + destruct clo; discriminate H1.
Qed.

Lemma between_false_spec (lo hi : Q) (clo chi x : float) :
  denotes clo lo -> denotes chi hi -> is_float x = true ->
  between clo chi x = false <-> ~ in_interval lo hi x.
Proof.
  intros Dlo Dhi Vx.
  rewrite <- (between_spec lo hi clo chi x Dlo Dhi Vx).
  destruct (between clo chi x); intuition congruence.
Qed.

Lemma denotes_f0 : denotes f0 0.
Proof. repeat split. Qed.
Lemma denotes_f5 : denotes f5 5.
Proof. repeat split. Qed.
Lemma denotes_f6_5 : denotes f6_5 (13 # 2).
Proof. repeat split. Qed.
Lemma denotes_f8_5 : denotes f8_5 (17 # 2).
Proof. repeat split. Qed.
Lemma denotes_f10 : denotes f10 10.
Proof. repeat split. Qed.
Lemma denotes_f14 : denotes f14 14.
Proof. repeat split. Qed.

Example example_numbers :
  forallb is_float [f1; f6; f7; f8; f9; f12; f20; fm1; nan; pos_inf] = true
  /\ (value f1 == 1 /\ value f6 == 6 /\ value f7 == 7 /\ value f8 == 8
      /\ value f9 == 9 /\ value f12 == 12 /\ value f20 == 20
      /\ value fm1 == -1)%Q.
Proof. repeat split. Qed.

(** ** Comparisons in both directions *)

Lemma SFcompare_antisym (x y : float) :
  SFcompare y x = option_map CompOpp (SFcompare x y).
Proof.
  destruct x as [sx | sx | | sx mx ex], y as [sy | sy | | sy my ey];
    cbn [SFcompare option_map]; try reflexivity;
    try (destruct sx; reflexivity); try (destruct sy; reflexivity);
    try (destruct sx, sy; reflexivity).
  assert (Hm : Pos.compare_cont Eq my mx
               = CompOpp (Pos.compare_cont Eq mx my))
    by (rewrite Pos.compare_cont_antisym; reflexivity).
  destruct sx, sy; cbn [CompOpp]; try reflexivity; f_equal;
    rewrite (Z.compare_antisym ex ey), Hm;
    destruct (ex ?= ey); cbn [CompOpp]; try reflexivity;
    destruct (Pos.compare_cont Eq mx my); reflexivity.
Qed.

Lemma SFltb_negb_SFleb (x y : float) :
  is_nan x = false -> is_nan y = false ->
  SFltb x y = negb (SFleb y x).
Proof.
  intros Hx Hy. unfold SFltb, SFleb. rewrite (SFcompare_antisym x y).
  destruct (SFcompare x y) as [[| |]|] eqn:Hc; try reflexivity.
  destruct x, y; discriminate.
Qed.

Lemma outside_nan (lo hi : float) : outside lo hi nan = false.
Proof. unfold outside. destruct lo, hi; reflexivity. Qed.

Lemma outside_negb_between (lo hi x : float) :
  is_nan lo = false -> is_nan hi = false -> is_nan x = false ->
  outside lo hi x = negb (between lo hi x).
Proof.
  intros Hlo Hhi Hx. unfold outside, between.
  rewrite (SFltb_negb_SFleb x lo Hx Hlo), (SFltb_negb_SFleb hi x Hhi Hx).
  rewrite negb_andb. reflexivity.
Qed.

(** A number is flagged by the two comparisons exactly when it is not NaN
    and lies outside the interval. *)
Lemma outside_spec (lo hi : Q) (clo chi x : float) :
  denotes clo lo -> denotes chi hi -> is_float x = true ->
  outside clo chi x = true <-> is_nan x = false /\ ~ in_interval lo hi x.
Proof.
  intros Dlo Dhi Vx. destruct (is_nan x) eqn:Hn.
  - destruct x; try discriminate Hn. fold nan. rewrite outside_nan.
    split; [discriminate | intros [H _]; discriminate].
  - rewrite outside_negb_between;
      [| destruct Dlo as (_ & F & _); destruct clo; (discriminate || reflexivity)
       | destruct Dhi as (_ & F & _); destruct chi; (discriminate || reflexivity)
       | exact Hn].
    rewrite negb_true_iff.
    rewrite (between_false_spec lo hi clo chi x Dlo Dhi Vx). tauto.
Qed.

Example more_numbers :
  forallb is_float
    [f0_1; f3; f6_9; f7_2; f7_5; f8_2; f9_9; f1e_9; fm1e_10; neg_inf] = true
  /\ (value f3 == 3 /\ value f7_5 == 15 # 2)%Q
  /\ of_nat 3 = f3 /\ of_nat 1 = f1 /\ of_nat 0 = f0.
Proof. repeat split. Qed.

(** ** The sign of a quotient *)










End Float64.
(* ===================================================================== *)
(** * Python values shared by the pages *)
(* ===================================================================== *)

Module Py.

(** [sub in s] on two strings: [sub] occurs in [s]. *)
Fixpoint mentions_from (fuel : nat) (sub s : string) : bool :=
  match fuel with
  | O => false
  | S k =>
      prefix sub s
      || match s with
         | EmptyString => false
         | String _ s' => mentions_from k sub s'
         end
  end.

Definition mentions (sub s : string) : bool :=
  mentions_from (S (String.length s)) sub s.

(** Exceptions raised by the library calls of the pages. *)
Inductive exn : Type :=
| ConnectionError   (* requests.get: no answer from the service *)
| JSONDecodeError   (* response.json(): the body is not JSON *)
| TypeError
| KeyError.

(** Outcome of a call that may raise. *)
Inductive result (A : Type) : Type :=
| Ok (a : A)
| Raise (e : exn).
Arguments Ok {A} a.
Arguments Raise {A} e.

Definition bind {A B : Type} (r : result A) (k : A -> result B) : result B :=
  match r with
  | Ok a => k a
  | Raise e => Raise e
  end.

End Py.

(* ===================================================================== *)
(** * Reading validator ([validate_data], 2_Manual_Input.py) *)
(* ===================================================================== *)

Module Validator.
Import Float64.
Import Py.

Local Open Scope string_scope.
Local Open Scope list_scope.

Definition warn_pH : string :=
  "pH level is outside the typical safe range (6.5 - 8.5).".
Definition warn_turbidity : string :=
  "Turbidity is outside the typical safe range (0 - 5 NTU).".
Definition warn_dissolved_oxygen : string :=
  "Dissolved Oxygen is outside the typical safe range (5 - 14 mg/L).".
Definition warn_nitrate : string :=
  "Nitrate level is outside the safe range (0 - 10 mg/L).".

(** [if not ok: validation_warnings.append(w)]. *)
Definition append_unless (ok : bool) (w : string) (ws : list string) :=
  if negb ok then ws ++ [w] else ws.

(** The integer literals [0], [5], [14] and [10] of the source are compared
    with a float by value, which is the comparison with the float of the same
    value. *)
Definition validate_data (pH turbidity dissolved_oxygen nitrate : float)
  : list string :=
  let validation_warnings := [] in
  let validation_warnings :=
    append_unless (between f6_5 f8_5 pH) warn_pH validation_warnings in
  let validation_warnings :=
    append_unless (between f0 f5 turbidity) warn_turbidity
      validation_warnings in
  let validation_warnings :=
    append_unless (between f5 f14 dissolved_oxygen) warn_dissolved_oxygen
      validation_warnings in
  let validation_warnings :=
    append_unless (between f0 f10 nitrate) warn_nitrate validation_warnings in
  validation_warnings.

Definition parameter_names : list string :=
  ["pH"; "Turbidity"; "Dissolved Oxygen"; "Nitrate"].

(** The parameters, among the four, that a warning names. *)
Definition named_by (w : string) : list string :=
  filter (fun name => mentions name w) parameter_names.

(** One warning, or none. *)
Definition flag (raised : bool) (w : string) : list string :=
  if raised then [w] else [].

Lemma validate_data_flags (pH t d n : float) :
  validate_data pH t d n =
    flag (negb (between f6_5 f8_5 pH)) warn_pH
    ++ flag (negb (between f0 f5 t)) warn_turbidity
    ++ flag (negb (between f5 f14 d)) warn_dissolved_oxygen
    ++ flag (negb (between f0 f10 n)) warn_nitrate.
Proof.
  unfold validate_data, append_unless, flag.
  destruct (between f6_5 f8_5 pH), (between f0 f5 t),
    (between f5 f14 d), (between f0 f10 n); reflexivity.
Qed.

Lemma warning_names :
  named_by warn_pH = ["pH"]
  /\ named_by warn_turbidity = ["Turbidity"]
  /\ named_by warn_dissolved_oxygen = ["Dissolved Oxygen"]
  /\ named_by warn_nitrate = ["Nitrate"].
Proof. repeat split. Qed.

Example validate_all_in_range : validate_data f7 f1 f8 f1 = [].
Proof. reflexivity. Qed.

Example validate_high_pH : validate_data f9 f1 f8 f1 = [warn_pH].
Proof. reflexivity. Qed.

Example validate_four_warnings :
  validate_data f9 f12 f1 f20 =
    [warn_pH; warn_turbidity; warn_dissolved_oxygen; warn_nitrate].
Proof. reflexivity. Qed.

Example validate_nan : validate_data nan f1 f8 f1 = [warn_pH].
Proof. reflexivity. Qed.

Lemma flags_nil (b1 b2 b3 b4 : bool) (w1 w2 w3 w4 : string) :
  flag b1 w1 ++ flag b2 w2 ++ flag b3 w3 ++ flag b4 w4 = []
  <-> b1 = false /\ b2 = false /\ b3 = false /\ b4 = false.
Proof.
  destruct b1, b2, b3, b4; cbn; intuition discriminate.
Qed.

(** C1. [validate_data] is total; its result is the concatenation, in the
    order pH, turbidity, dissolved oxygen, nitrate, of one warning for each
    parameter outside its inclusive safe range ([6.5, 8.5], [0, 5], [5, 14],
    [0, 10]) and of nothing for a parameter inside it; each warning names its
    own parameter and no other; the result is empty exactly when the four
    values are in range. *)
Theorem validate_data_spec (pH t d n : float) :
  is_float pH = true -> is_float t = true ->
  is_float d = true -> is_float n = true ->
  (exists o1 o2 o3 o4 : bool,
      validate_data pH t d n =
        flag o1 warn_pH ++ flag o2 warn_turbidity
        ++ flag o3 warn_dissolved_oxygen ++ flag o4 warn_nitrate
      /\ (o1 = true <-> ~ in_interval (13 # 2) (17 # 2) pH)
      /\ (o2 = true <-> ~ in_interval 0 5 t)
      /\ (o3 = true <-> ~ in_interval 5 14 d)
      /\ (o4 = true <-> ~ in_interval 0 10 n))
  /\ (validate_data pH t d n = [] <->
        in_interval (13 # 2) (17 # 2) pH /\ in_interval 0 5 t
        /\ in_interval 5 14 d /\ in_interval 0 10 n)
  /\ named_by warn_pH = ["pH"]
  /\ named_by warn_turbidity = ["Turbidity"]
  /\ named_by warn_dissolved_oxygen = ["Dissolved Oxygen"]
  /\ named_by warn_nitrate = ["Nitrate"].
Proof.
  intros VpH Vt Vd Vn.
  pose proof (between_spec _ _ _ _ pH denotes_f6_5 denotes_f8_5 VpH) as HpH.
  pose proof (between_spec _ _ _ _ t denotes_f0 denotes_f5 Vt) as Ht.
  pose proof (between_spec _ _ _ _ d denotes_f5 denotes_f14 Vd) as Hd.
  pose proof (between_spec _ _ _ _ n denotes_f0 denotes_f10 Vn) as Hn.
  split; [|split; [|exact warning_names]].
  - exists (negb (between f6_5 f8_5 pH)), (negb (between f0 f5 t)),
      (negb (between f5 f14 d)), (negb (between f0 f10 n)).
    split; [apply validate_data_flags|].
    rewrite !negb_true_iff.
    rewrite (between_false_spec _ _ _ _ pH denotes_f6_5 denotes_f8_5 VpH).
    rewrite (between_false_spec _ _ _ _ t denotes_f0 denotes_f5 Vt).
    rewrite (between_false_spec _ _ _ _ d denotes_f5 denotes_f14 Vd).
    rewrite (between_false_spec _ _ _ _ n denotes_f0 denotes_f10 Vn).
    repeat split; auto.
  - rewrite validate_data_flags, flags_nil, !negb_false_iff.
    rewrite HpH, Ht, Hd, Hn. reflexivity.
Qed.

Lemma validate_data_spec_witness :
  (exists o1 o2 o3 o4 : bool,
      validate_data f9 f12 f1 f20 =
        flag o1 warn_pH ++ flag o2 warn_turbidity
        ++ flag o3 warn_dissolved_oxygen ++ flag o4 warn_nitrate
      /\ (o1 = true <-> ~ in_interval (13 # 2) (17 # 2) f9)
      /\ (o2 = true <-> ~ in_interval 0 5 f12)
      /\ (o3 = true <-> ~ in_interval 5 14 f1)
      /\ (o4 = true <-> ~ in_interval 0 10 f20))
  /\ (validate_data f9 f12 f1 f20 = [] <->
        in_interval (13 # 2) (17 # 2) f9 /\ in_interval 0 5 f12
        /\ in_interval 5 14 f1 /\ in_interval 0 10 f20)
  /\ named_by warn_pH = ["pH"]
  /\ named_by warn_turbidity = ["Turbidity"]
  /\ named_by warn_dissolved_oxygen = ["Dissolved Oxygen"]
  /\ named_by warn_nitrate = ["Nitrate"].
Proof.
  apply (validate_data_spec f9 f12 f1 f20); reflexivity.
Defined.

(** C10. On the inputs the entry form can produce (pH in [6.5, 8.5],
    turbidity in [0, 10], dissolved oxygen in [5, 14], nitrate in [0, 10], the
    bounds of the four [st.number_input] widgets) [validate_data] returns
    either no warning or the turbidity warning alone; the pH, dissolved-oxygen
    and nitrate warnings are never produced. *)
Theorem validate_data_form_inputs (pH t d n : float) :
  is_float pH = true -> is_float t = true ->
  is_float d = true -> is_float n = true ->
  in_interval (13 # 2) (17 # 2) pH -> in_interval 0 10 t ->
  in_interval 5 14 d -> in_interval 0 10 n ->
  (validate_data pH t d n = [] \/ validate_data pH t d n = [warn_turbidity])
  /\ (validate_data pH t d n = [] <-> in_interval 0 5 t)
  /\ (List.length (validate_data pH t d n) <= 1)%nat
  /\ ~ In warn_pH (validate_data pH t d n)
  /\ ~ In warn_dissolved_oxygen (validate_data pH t d n)
  /\ ~ In warn_nitrate (validate_data pH t d n).
Proof.
  intros VpH Vt Vd Vn HpH _ Hd Hn.
  apply (between_spec _ _ _ _ pH denotes_f6_5 denotes_f8_5 VpH) in HpH.
  apply (between_spec _ _ _ _ d denotes_f5 denotes_f14 Vd) in Hd.
  apply (between_spec _ _ _ _ n denotes_f0 denotes_f10 Vn) in Hn.
  pose proof (between_spec _ _ _ _ t denotes_f0 denotes_f5 Vt) as Ht.
  rewrite validate_data_flags, HpH, Hd, Hn. cbn [negb flag app].
  rewrite <- Ht.
  destruct (between f0 f5 t); cbn [negb flag app List.length In].
  - repeat split; auto; intros []; discriminate.
  - repeat split; auto; try discriminate.
    all: intros [H | []]; discriminate H.
Qed.

Lemma validate_data_form_inputs_witness :
  (validate_data f7 f6 f8 f1 = [] \/ validate_data f7 f6 f8 f1 = [warn_turbidity])
  /\ (validate_data f7 f6 f8 f1 = [] <-> in_interval 0 5 f6)
  /\ (List.length (validate_data f7 f6 f8 f1) <= 1)%nat
  /\ ~ In warn_pH (validate_data f7 f6 f8 f1)
  /\ ~ In warn_dissolved_oxygen (validate_data f7 f6 f8 f1)
  /\ ~ In warn_nitrate (validate_data f7 f6 f8 f1).
Proof.
  apply (validate_data_form_inputs f7 f6 f8 f1);
    try reflexivity; unfold in_interval; cbn [F2Q f7 f6 f8 f1];
    split; unfold Qle; cbn [Qnum Qden]; vm_compute; discriminate.
Defined.

End Validator.

(* ===================================================================== *)
(** * Coordinate resolver (2_Manual_Input.py) *)
(* ===================================================================== *)

Module Resolver.
Import Float64.
Import Py.

Local Open Scope string_scope.
Local Open Scope list_scope.

Definition coord : Type := float * float.

(** [known_zipcode_coords]: a dict literal, iterated in insertion order. *)
Definition known_zipcode_coords : list (string * coord) :=
  [ ("95110", (S754_finite false 5255447437662329 (-47),
               S754_finite true 8577921767759571 (-46)));
    ("95112", (S754_finite false 5257037771280744 (-47),
               S754_finite true 8576999937210843 (-46)));
    ("95113", (S754_finite false 5254194874015967 (-47),
               S754_finite true 8577295485936389 (-46)));
    ("95116", (S754_finite false 5256488895076159 (-47),
               S754_finite true 8574917022383184 (-46)));
    ("95117", (S754_finite false 5251281608007012 (-47),
               S754_finite true 8581482426214960 (-46)));
    ("95118", (S754_finite false 5242541809980146 (-47),
               S754_finite true 8577182895945705 (-46)));
    ("95120", (S754_finite false 5236278991748334 (-47),
               S754_finite true 8571848945137038 (-46))) ].

(** JSON documents as [response.json()] returns them. *)
#[warnings="-register-all"]
Inductive json : Type :=
| JNull
| JBool (b : bool)
| JNumber (literal : string)
| JString (s : string)
| JArray (items : list json)
| JObject (members : list (string * json)).

(** Lookup in the dict built from an object: a repeated key keeps its last
    value. *)
Fixpoint dict_get (k : string) (members : list (string * json))
  : option json :=
  match members with
  | [] => None
  | (k', v) :: rest =>
      match dict_get k rest with
      | Some v' => Some v'
      | None => if String.eqb k k' then Some v else None
      end
  end.

Definition is_string (k : string) (v : json) : bool :=
  match v with
  | JString s => String.eqb k s
  | _ => false
  end.

(** [k in v] for a string [k]. *)
Definition py_contains (k : string) (v : json) : result bool :=
  match v with
  | JObject members =>
      Ok (match dict_get k members with Some _ => true | None => false end)
  | JArray items => Ok (existsb (is_string k) items)
  | JString s => Ok (mentions k s)
  | JNull | JBool _ | JNumber _ => Raise TypeError
  end.

(** [v[k]] for a string [k]. *)
Definition py_getitem (v : json) (k : string) : result json :=
  match v with
  | JObject members =>
      match dict_get k members with
      | Some x => Ok x
      | None => Raise KeyError
      end
  | _ => Raise TypeError
  end.

(** What [requests.get(url)] does: it raises, or it returns a response with
    a status code and a body that is JSON ([Some]) or not ([None]). *)
Inductive http_outcome : Type :=
| RequestFailed
| Response (status_code : Z) (body : option json).

(** A zip code as Python returns it: a string or [None]. *)
Definition of_zipcode (z : option string) : json :=
  match z with
  | Some s => JString s
  | None => JNull
  end.

Section Geodesic.

(** [geodesic(a, b).miles] of geopy. *)
Variable geodesic_miles : coord -> coord -> float.

(** The [for] loop of [get_nearest_zipcode], with its two variables. *)
Fixpoint nearest_loop (lat lon : float) (items : list (string * coord))
  (min_distance : float) (nearest_zipcode : option string) : option string :=
  match items with
  | [] => nearest_zipcode
  | (zipcode, c) :: rest =>
      let distance := geodesic_miles (lat, lon) c in
      if SFltb distance min_distance
      then nearest_loop lat lon rest distance (Some zipcode)
      else nearest_loop lat lon rest min_distance nearest_zipcode
  end.

Definition get_nearest_zipcode (lat lon : float) : option string :=
  nearest_loop lat lon known_zipcode_coords pos_inf None.

Definition get_zipcode_from_coordinates (service : http_outcome)
  (lat lon : float) : result json :=
  match service with
  | RequestFailed => Raise ConnectionError
  | Response status_code body =>
      let fallback := Ok (of_zipcode (get_nearest_zipcode lat lon)) in
      if Z.eqb status_code 200 then
        match body with
        | None => Raise JSONDecodeError
        | Some data =>
            bind (py_contains "address" data) (fun has_address =>
            if has_address then
              bind (py_getitem data "address") (fun address =>
              bind (py_contains "postcode" address) (fun has_postcode =>
              if has_postcode then py_getitem address "postcode"
              else fallback))
            else fallback)
        end
      else fallback
  end.

(** The distance to every known location is a finite binary64 number. *)
Definition finite_distances (lat lon : float) : Prop :=
  forall z c, In (z, c) known_zipcode_coords ->
    is_float (geodesic_miles (lat, lon) c) = true
    /\ is_finite (geodesic_miles (lat, lon) c) = true.

(** Entry [i] of [l] is at the least distance from the point, and every
    entry before it is strictly farther. *)
Definition first_nearest (lat lon : float) (l : list (string * coord))
  (i : nat) (z : string) (c : coord) : Prop :=
  nth_error l i = Some (z, c)
  /\ (forall j z' c', nth_error l j = Some (z', c') ->
        (value (geodesic_miles (lat, lon) c)
         <= value (geodesic_miles (lat, lon) c'))%Q)
  /\ (forall j z' c', (j < i)%nat -> nth_error l j = Some (z', c') ->
        (value (geodesic_miles (lat, lon) c)
         < value (geodesic_miles (lat, lon) c'))%Q).

End Geodesic.

(** The ways the reverse-geocoding call can fail. *)
Definition call_failed (service : http_outcome) : Prop :=
  match service with
  | RequestFailed => True
  | Response status_code body =>
      status_code <> 200
      \/ match body with
         | None => True
         | Some (JObject members) =>
             match dict_get "address" members with
             | None => True
             | Some (JObject address) => dict_get "postcode" address = None
             | Some _ => True
             end
         | Some _ => True
         end
  end.

(** The failures after which the source reaches its last line: a
    non-success status, or a JSON object without an address, or with an
    address object without a postcode. *)
Definition answered_without_postcode (service : http_outcome) : Prop :=
  match service with
  | RequestFailed => False
  | Response status_code body =>
      status_code <> 200
      \/ match body with
         | Some (JObject members) =>
             match dict_get "address" members with
             | None => True
             | Some (JObject address) => dict_get "postcode" address = None
             | Some _ => False
             end
         | _ => False
         end
  end.

(** A distance function for the examples: one mile to 95113, five miles to
    every other place. *)
Definition toy_miles (_ c : coord) : float :=
  if SFeqb (fst c) (S754_finite false 5254194874015967 (-47))
  then f1 else f5.

(** The centre of the map, [37.3382, -121.8863]. *)
Definition san_jose : coord :=
  (S754_finite false 5254884487708908 (-47),
   S754_finite true 8576985863462008 (-46)).

(** ** The loop of [get_nearest_zipcode] *)

Section Nearest.

Variable geodesic_miles : coord -> coord -> float.
Variables lat lon : float.

Let dist (c : coord) : float := geodesic_miles (lat, lon) c.

Definition finite_on (l : list (string * coord)) : Prop :=
  forall z c, In (z, c) l ->
    is_float (dist c) = true /\ is_finite (dist c) = true.

Lemma finite_lt_pos_inf (x : float) :
  is_finite x = true -> SFltb x pos_inf = true.
Proof. destruct x; try discriminate; reflexivity. Qed.

Lemma first_nearest_keep (l : list (string * coord)) (i : nat)
  (z z1 : string) (c c1 : coord) :
  first_nearest geodesic_miles lat lon l i z c ->
  scaled (dist c) <= scaled (dist c1) ->
  first_nearest geodesic_miles lat lon (l ++ [(z1, c1)]) i z c.
Proof.
  unfold first_nearest, value. setoid_rewrite Qle_scaled.
  setoid_rewrite Qlt_scaled.
  intros (Hi & Hmin & Hfirst) Hle.
  assert (Hlen : (i < List.length l)%nat)
    by (apply nth_error_Some; rewrite Hi; discriminate).
  repeat split.
  - rewrite nth_error_app1 by exact Hlen. exact Hi.
  - intros j z' c' Hj.
    destruct (Nat.lt_ge_cases j (List.length l)) as [Hlt | Hge].
    + rewrite nth_error_app1 in Hj by exact Hlt. eapply Hmin; eauto.
    + rewrite nth_error_app2 in Hj by exact Hge.
      destruct (j - List.length l)%nat as [|k]; cbn in Hj.
      * injection Hj as _ <-. exact Hle.
      * destruct k; discriminate Hj.
  - intros j z' c' Hlt Hj.
    rewrite nth_error_app1 in Hj by lia. eapply Hfirst; eauto.
Qed.

Lemma first_nearest_replace (l : list (string * coord)) (i : nat)
  (z z1 : string) (c c1 : coord) :
  first_nearest geodesic_miles lat lon l i z c ->
  scaled (dist c1) < scaled (dist c) ->
  first_nearest geodesic_miles lat lon (l ++ [(z1, c1)])
    (List.length l) z1 c1.
Proof.
  unfold first_nearest, value. setoid_rewrite Qle_scaled.
  setoid_rewrite Qlt_scaled.
  intros (Hi & Hmin & Hfirst) Hlt.
  repeat split.
  - rewrite nth_error_app2 by lia. rewrite Nat.sub_diag. reflexivity.
  - intros j z' c' Hj.
    destruct (Nat.lt_ge_cases j (List.length l)) as [Hj1 | Hge].
    + rewrite nth_error_app1 in Hj by exact Hj1.
      specialize (Hmin j z' c' Hj). unfold dist in *. lia.
    + rewrite nth_error_app2 in Hj by exact Hge.
      destruct (j - List.length l)%nat as [|k]; cbn in Hj.
      * injection Hj as _ <-. lia.
      * destruct k; discriminate Hj.
  - intros j z' c' Hj1 Hj.
    rewrite nth_error_app1 in Hj by exact Hj1.
    specialize (Hmin j z' c' Hj). unfold dist in *. lia.
Qed.

Lemma nearest_loop_invariant (items seen : list (string * coord)) (i : nat)
  (z : string) (c : coord) :
  finite_on (seen ++ items) ->
  first_nearest geodesic_miles lat lon seen i z c ->
  exists i' z' c',
    first_nearest geodesic_miles lat lon (seen ++ items) i' z' c'
    /\ nearest_loop geodesic_miles lat lon items (dist c) (Some z) = Some z'.
Proof.
  revert seen i z c.
  induction items as [| [z1 c1] rest IH]; intros seen i z c Hfin Hbest.
  - rewrite app_nil_r. exists i, z, c. split; [exact Hbest | reflexivity].
  - cbn [nearest_loop]. fold (dist c1).
    assert (Hc : In (z, c) (seen ++ (z1, c1) :: rest)).
    { apply in_or_app. left. destruct Hbest as (Hi & _).
      eapply nth_error_In; eauto. }
    assert (Hc1 : In (z1, c1) (seen ++ (z1, c1) :: rest))
      by (apply in_or_app; right; left; reflexivity).
    destruct (Hfin _ _ Hc) as [Vc Fc], (Hfin _ _ Hc1) as [Vc1 Fc1].
    replace (seen ++ (z1, c1) :: rest) with ((seen ++ [(z1, c1)]) ++ rest)
      in * by (rewrite <- app_assoc; reflexivity).
    destruct (SFltb (dist c1) (dist c)) eqn:Hlt.
    + apply SFltb_scaled in Hlt; try assumption.
      apply (IH (seen ++ [(z1, c1)]) (List.length seen) z1 c1 Hfin).
      eapply first_nearest_replace; eauto.
    + assert (Hle : scaled (dist c) <= scaled (dist c1)).
      { destruct (Z.le_gt_cases (scaled (dist c)) (scaled (dist c1)))
          as [H | H]; [exact H|].
        apply SFltb_scaled in H; try assumption. congruence. }
      apply (IH (seen ++ [(z1, c1)]) i z c Hfin).
      eapply first_nearest_keep; eauto.
Qed.

Lemma nearest_loop_start (items : list (string * coord)) :
  items <> [] -> finite_on items ->
  exists i z c,
    first_nearest geodesic_miles lat lon items i z c
    /\ nearest_loop geodesic_miles lat lon items pos_inf None = Some z.
Proof.
  destruct items as [| [z0 c0] rest]; [congruence|]. intros _ Hfin.
  cbn [nearest_loop]. fold (dist c0).
  destruct (Hfin z0 c0 (or_introl eq_refl)) as [V0 F0].
  rewrite (finite_lt_pos_inf _ F0).
  apply (nearest_loop_invariant rest [(z0, c0)] 0%nat z0 c0 Hfin).
  unfold first_nearest, value. setoid_rewrite Qle_scaled.
  setoid_rewrite Qlt_scaled.
  repeat split.
  - intros [|[|j]] z' c' Hj; try discriminate Hj.
    injection Hj as _ <-. lia.
  - intros j z' c' Hj. lia.
Qed.

End Nearest.

(** C4. When geopy's distances to the known locations are finite numbers,
    [get_nearest_zipcode] returns the zip code of an entry of the 7-entry
    table that is at the least distance from the point, every entry before
    it being strictly farther (so a tie goes to the first entry met); the
    result is never [None], and equal inputs give equal results. *)
Theorem get_nearest_zipcode_spec (geodesic_miles : coord -> coord -> float)
  (lat lon : float) :
  finite_distances geodesic_miles lat lon ->
  List.length known_zipcode_coords = 7%nat
  /\ (exists i z c,
        get_nearest_zipcode geodesic_miles lat lon = Some z
        /\ first_nearest geodesic_miles lat lon known_zipcode_coords i z c)
  /\ get_nearest_zipcode geodesic_miles lat lon <> None
  /\ (forall lat' lon', lat' = lat -> lon' = lon ->
        get_nearest_zipcode geodesic_miles lat' lon'
        = get_nearest_zipcode geodesic_miles lat lon).
Proof.
  intros Hfin.
  destruct (nearest_loop_start geodesic_miles lat lon known_zipcode_coords)
    as (i & z & c & Hbest & Hz); [discriminate | exact Hfin |].
  split; [reflexivity|]. split; [|split].
  - exists i, z, c. split; [exact Hz | exact Hbest].
  - unfold get_nearest_zipcode. rewrite Hz. discriminate.
  - intros lat' lon' -> ->. reflexivity.
Qed.

Lemma get_nearest_zipcode_spec_witness :
  List.length known_zipcode_coords = 7%nat
  /\ (exists i z c,
        get_nearest_zipcode toy_miles (fst san_jose) (snd san_jose) = Some z
        /\ first_nearest toy_miles (fst san_jose) (snd san_jose)
             known_zipcode_coords i z c)
  /\ get_nearest_zipcode toy_miles (fst san_jose) (snd san_jose) <> None
  /\ (forall lat' lon', lat' = fst san_jose -> lon' = snd san_jose ->
        get_nearest_zipcode toy_miles lat' lon'
        = get_nearest_zipcode toy_miles (fst san_jose) (snd san_jose)).
Proof.
  apply (get_nearest_zipcode_spec toy_miles (fst san_jose) (snd san_jose)).
  intros z c H. cbn in H.
  repeat (destruct H as [H | H]; [injection H as _ <-; split; reflexivity|]).
  destruct H.
Defined.

Example nearest_toy :
  get_nearest_zipcode toy_miles (fst san_jose) (snd san_jose) = Some "95113".
Proof. reflexivity. Qed.

(** Ties go to the first entry: with all distances equal the first zip code
    of the table is returned. *)
Example nearest_tie :
  get_nearest_zipcode (fun _ _ => f1) (fst san_jose) (snd san_jose)
  = Some "95110".
Proof. reflexivity. Qed.

(** Without finite distances the loop keeps its initial [None]. *)
Example nearest_nan :
  get_nearest_zipcode (fun _ _ => nan) (fst san_jose) (snd san_jose) = None.
Proof. reflexivity. Qed.

(** C3 (as the code has it). When the service answers with a non-success
    status, or with a JSON object that has no address, or whose address
    object has no postcode, [get_zipcode_from_coordinates] returns the result
    of [get_nearest_zipcode], a zip code of the table and not [None]
    (distances being finite). *)
Theorem get_zipcode_falls_back (geodesic_miles : coord -> coord -> float)
  (service : http_outcome) (lat lon : float) :
  answered_without_postcode service ->
  finite_distances geodesic_miles lat lon ->
  get_zipcode_from_coordinates geodesic_miles service lat lon
    = Ok (of_zipcode (get_nearest_zipcode geodesic_miles lat lon))
  /\ exists z,
       In z (map fst known_zipcode_coords)
       /\ get_zipcode_from_coordinates geodesic_miles service lat lon
          = Ok (JString z).
Proof.
  intros Hans Hfin.
  assert (Hcall : get_zipcode_from_coordinates geodesic_miles service lat lon
    = Ok (of_zipcode (get_nearest_zipcode geodesic_miles lat lon))).
  { destruct service as [| status_code body]; [destruct Hans|].
    cbn [get_zipcode_from_coordinates].
    destruct (Z.eqb_spec status_code 200) as [E | NE]; [|reflexivity].
    destruct Hans as [Hs | Hb]; [congruence|].
    destruct body as [[| | | | |members]|]; try (exfalso; exact Hb).
    cbn [py_contains bind py_getitem].
    destruct (dict_get "address" members) as [[| | | | |address]|];
      try (exfalso; exact Hb); [|reflexivity].
    cbn [py_contains bind]. rewrite Hb. reflexivity. }
  split; [exact Hcall|].
  destruct (nearest_loop_start geodesic_miles lat lon known_zipcode_coords)
    as (i & z & c & (Hi & _) & Hz); [discriminate | exact Hfin |].
  exists z. split.
  - apply nth_error_In in Hi. apply (in_map fst) in Hi. exact Hi.
  - rewrite Hcall. unfold get_nearest_zipcode. rewrite Hz. reflexivity.
Qed.

Lemma get_zipcode_falls_back_witness :
  get_zipcode_from_coordinates toy_miles (Response 404 None)
      (fst san_jose) (snd san_jose)
    = Ok (of_zipcode
            (get_nearest_zipcode toy_miles (fst san_jose) (snd san_jose)))
  /\ exists z,
       In z (map fst known_zipcode_coords)
       /\ get_zipcode_from_coordinates toy_miles (Response 404 None)
            (fst san_jose) (snd san_jose)
          = Ok (JString z).
Proof.
  apply (get_zipcode_falls_back toy_miles (Response 404 None)).
  - left. discriminate.
  - intros z c H. cbn in H.
    repeat (destruct H as [H | H]; [injection H as _ <-; split; reflexivity|]).
    destruct H.
Defined.

(** C3 fails as stated: a network error is a failure of the call, and it is
    raised to the caller instead of being answered by the nearest known zip
    code; so is a body that is not JSON. *)
Lemma get_zipcode_network_error_raises :
  call_failed RequestFailed
  /\ get_zipcode_from_coordinates toy_miles RequestFailed
       (fst san_jose) (snd san_jose) = Raise ConnectionError
  /\ get_zipcode_from_coordinates toy_miles RequestFailed
       (fst san_jose) (snd san_jose)
     <> Ok (of_zipcode
              (get_nearest_zipcode toy_miles (fst san_jose) (snd san_jose)))
  /\ call_failed (Response 200 None)
  /\ get_zipcode_from_coordinates toy_miles (Response 200 None)
       (fst san_jose) (snd san_jose) = Raise JSONDecodeError.
Proof.
  repeat split; try discriminate. right. exact I.
Qed.

Example geocoder_postcode :
  get_zipcode_from_coordinates toy_miles
    (Response 200
       (Some (JObject [("address", JObject [("postcode", JString "95126")])])))
    (fst san_jose) (snd san_jose)
  = Ok (JString "95126").
Proof. reflexivity. Qed.

Example geocoder_error_object :
  get_zipcode_from_coordinates toy_miles
    (Response 200 (Some (JObject [("error", JString "Unable to geocode")])))
    (fst san_jose) (snd san_jose)
  = Ok (JString "95113").
Proof. reflexivity. Qed.

End Resolver.

(* ===================================================================== *)
(** * Record store (2_Manual_Input.py) *)
(* ===================================================================== *)

Module Store.
Import Float64.
Import Py.

Local Open Scope string_scope.
Local Open Scope list_scope.

(** One row of [san_jose_water_quality_user_data.csv]. The zip code and the
    date are the text written in the file. *)
Record Reading : Type := mkReading {
  Zipcode : string;
  Date : string;
  pH : float;
  Turbidity : float;
  Dissolved_Oxygen : float;
  Nitrate : float
}.



(** [new_data.to_csv(file_path, mode='a', header=False, index=False)]. *)
Definition append (r : Reading) (rows : list Reading) : list Reading :=
  rows ++ [r].

(** The texts that [pd.read_csv] takes for a missing value, also in a
    column read with [dtype=str] (its default [na_values]). *)
Definition na_values : list string :=
  [""; "#N/A"; "#N/A N/A"; "#NA"; "-1.#IND"; "-1.#QNAN"; "-NaN"; "-nan";
   "1.#IND"; "1.#QNAN"; "<NA>"; "N/A"; "NA"; "NULL"; "NaN"; "None"; "n/a";
   "nan"; "null"].

Definition is_na (s : string) : bool :=
  existsb (String.eqb s) na_values.

(** A row of the frame [recent_data]: the zip code is a string or NaN
    ([None]). The date is the ISO text that [st.date_input] gave, and a
    measurement is the number that [to_csv] wrote; both are taken to be read
    back as written. *)
Record Row : Type := mkRow {
  row_Zipcode : option string;
  row_Date : string;
  row_pH : float;
  row_Turbidity : float;
  row_Dissolved_Oxygen : float;
  row_Nitrate : float
}.

Definition read_row (r : Reading) : Row :=
  mkRow (if is_na (Zipcode r) then None else Some (Zipcode r))
    (Date r) (pH r) (Turbidity r) (Dissolved_Oxygen r) (Nitrate r).

(** [to_csv] writes NaN as an empty field. *)
Definition write_row (r : Row) : Reading :=
  mkReading (match row_Zipcode r with Some z => z | None => "" end)
    (row_Date r) (row_pH r) (row_Turbidity r) (row_Dissolved_Oxygen r)
    (row_Nitrate r).

Definition frame_of (rows : list Reading) : list Row := map read_row rows.

(** [recent_data.to_csv(file_path, index=False)]. *)
Definition to_csv (frame : list Row) : list Reading := map write_row frame.

(** [pd.read_csv(file_path, dtype={"Zipcode": str})]: the rows in file
    order, under the index [0 .. n-1]. *)
Definition load_all (rows : list Reading) : result (list Row) :=
  Ok (frame_of rows).

(** [recent_data.drop(idx)]: the label must be in the index. *)
Definition drop (idx : Z) (frame : list Row) : result (list Row) :=
  if (0 <=? idx)%Z && (idx <? Z.of_nat (List.length frame))%Z
  then Ok (firstn (Z.to_nat idx) frame ++ skipn (S (Z.to_nat idx)) frame)
  else Raise KeyError.

(** The handler of the button "Delete Entry idx": load, drop, write back.
    Returns the outcome and the rows of the file afterwards. *)
Definition delete_entry (idx : Z) (rows : list Reading)
  : result unit * list Reading :=
  match bind (load_all rows) (drop idx) with
  | Ok recent_data => (Ok tt, to_csv recent_data)
  | Raise e => (Raise e, rows)
  end.

(** The handler of the button "Submit Data" (lines 106-126). *)
Definition submit (zipcode date : string)
  (ph_level turbidity dissolved_oxygen nitrate : float)
  (rows : list Reading) : list string * list Reading :=
  if String.eqb zipcode "" then
    (["Please enter or confirm a valid zipcode."], rows)
  else
    match Validator.validate_data ph_level turbidity dissolved_oxygen nitrate
    with
    | [] =>
        ([], append (mkReading zipcode date ph_level turbidity
                       dissolved_oxygen nitrate) rows)
    | validation_warnings => (validation_warnings, rows)
    end.


(** The row as the delete handler writes it back. *)
Definition rewritten (r : Reading) : Reading := write_row (read_row r).

Definition sample : Reading :=
  mkReading "95110" "2024-11-05" f7 f1 f8 f1.

(** A reading that the form accepts, with a zip code of two letters. *)
Definition sample_NA : Reading :=
  mkReading "NA" "2024-11-05" f7 f1 f8 f1.

(** ** Reading and writing a row *)



Lemma rewritten_na (r : Reading) :
  is_na (Zipcode r) = true ->
  rewritten r
  = mkReading "" (Date r) (pH r) (Turbidity r) (Dissolved_Oxygen r)
      (Nitrate r).
Proof. unfold rewritten, read_row, write_row. intros ->. reflexivity. Qed.

Lemma read_rewritten (r : Reading) : read_row (rewritten r) = read_row r.
Proof.
  unfold rewritten, read_row, write_row.
  cbn [row_Zipcode row_Date row_pH row_Turbidity row_Dissolved_Oxygen
       row_Nitrate Zipcode Date pH Turbidity Dissolved_Oxygen Nitrate].
  destruct (is_na (Zipcode r)) eqn:Hna; [reflexivity|].
  rewrite Hna. reflexivity.
Qed.


Lemma length_frame_of (rows : list Reading) :
  List.length (frame_of rows) = List.length rows.
Proof. apply length_map. Qed.



(** C7. For every content of the store and every position that is not one
    of the row labels [0 .. n-1] (negative, or at least the row count),
    deleting fails with pandas' [KeyError] before anything is written: the
    file keeps its rows and [load_all] returns the same sequence as
    before. *)
Theorem delete_entry_out_of_range (idx : Z) (rows : list Reading) :
  ~ (0 <= idx < Z.of_nat (List.length rows))%Z ->
  fst (delete_entry idx rows) = Raise KeyError
  /\ snd (delete_entry idx rows) = rows
  /\ load_all (snd (delete_entry idx rows)) = load_all rows.
Proof.
  intros Hout. unfold delete_entry, load_all, bind, drop.
  rewrite length_frame_of.
  destruct (Z.leb_spec 0 idx), (Z.ltb_spec idx (Z.of_nat (List.length rows)));
    cbn [andb fst snd]; try (repeat split; reflexivity).
  exfalso. apply Hout. lia.
Qed.

Lemma delete_entry_out_of_range_witness :
  fst (delete_entry 2 [sample; sample]) = Raise KeyError
  /\ snd (delete_entry 2 [sample; sample]) = [sample; sample]
  /\ load_all (snd (delete_entry 2 [sample; sample]))
     = load_all [sample; sample].
Proof.
  apply (delete_entry_out_of_range 2 [sample; sample]). cbn. lia.
Defined.

Example delete_negative :
  delete_entry (-1) [sample] = (Raise KeyError, [sample]).
Proof. reflexivity. Qed.




Example submit_in_range :
  submit "95110" "2024-11-05" f7 f1 f8 f1 [] = ([], [sample]).
Proof. reflexivity. Qed.

Example submit_with_warning :
  submit "95110" "2024-11-05" f7 f6 f8 f1 []
  = ([Validator.warn_turbidity], []).
Proof. reflexivity. Qed.

(** A row whose zip text reads as missing is written back with an empty
    zip code when another row is deleted. *)
Example delete_rewrites_NA :
  delete_entry 1 [sample_NA; sample]
  = (Ok tt, [mkReading "" "2024-11-05" f7 f1 f8 f1]).
Proof. reflexivity. Qed.

End Store.

(* ===================================================================== *)
(** * Learning dashboard (Home_page.py) *)
(* ===================================================================== *)

Module Home.
Import Float64.
Import Py.

Local Open Scope string_scope.
Local Open Scope list_scope.

(** ** Loading the file without a column type *)

(** A cell of the [Zipcode] column after [pd.read_csv]. *)
Inductive zip_value : Type :=
| ZipStr (s : string)
| ZipInt (n : Z).

Definition digit_value (c : ascii) : option Z :=
  let n := Z.of_N (N_of_ascii c) in
  if (48 <=? n)%Z && (n <=? 57)%Z then Some (n - 48)%Z else None.

(** A space, or one of the characters from tab to carriage return. *)
Definition is_space (c : ascii) : bool :=
  let n := Z.of_N (N_of_ascii c) in
  (n =? 32)%Z || ((9 <=? n)%Z && (n <=? 13)%Z).

Fixpoint skip_spaces (s : string) : string :=
  match s with
  | String c rest => if is_space c then skip_spaces rest else s
  | EmptyString => s
  end.

(** The digits at the head of [s], as a number, and what follows them. *)
Fixpoint parse_digits (s : string) (acc : Z) : Z * string :=
  match s with
  | EmptyString => (acc, s)
  | String c rest =>
      match digit_value c with
      | Some d => parse_digits rest (10 * acc + d)%Z
      | None => (acc, s)
      end
  end.

Definition skip_sign (s : string) : bool * string :=
  match s with
  | String "-" rest => (true, rest)
  | String "+" rest => (false, rest)
  | _ => (false, s)
  end.

(** A cell that the reader takes for an integer: spaces, an optional sign,
    at least one digit, spaces. *)
Definition int_literal (s : string) : option Z :=
  let '(negative, s) := skip_sign (skip_spaces s) in
  match s with
  | EmptyString => None
  | String c _ =>
      match digit_value c with
      | None => None
      | Some _ =>
          let '(n, rest) := parse_digits s 0 in
          match skip_spaces rest with
          | EmptyString => Some (if negative then - n else n)%Z
          | String _ _ => None
          end
      end
  end.

Fixpoint int64_column (cells : list string) : option (list Z) :=
  match cells with
  | [] => Some []
  | s :: rest =>
      match int_literal s, int64_column rest with
      | Some n, Some ns =>
          if (- 2 ^ 63 <=? n)%Z && (n <? 2 ^ 63)%Z then Some (n :: ns)
          else None
      | _, _ => None
      end
  end.

(** [pd.read_csv(file_path)] on the [Zipcode] column: with no [dtype] the
    column type is inferred, and a column whose cells are all integer
    literals becomes an [int64] column. For any other column the cells are
    kept here as text (pandas would first try [float64]; no statement below
    depends on that case). *)
Definition read_csv_zipcodes (rows : list Store.Reading) : list zip_value :=
  match int64_column (map Store.Zipcode rows) with
  | Some ns => map ZipInt ns
  | None => map (fun r => ZipStr (Store.Zipcode r)) rows
  end.

(** [pd.read_csv(file_path, dtype={"Zipcode": str})], the loader of the two
    other pages. *)
Definition read_csv_zipcodes_str (rows : list Store.Reading)
  : list zip_value :=
  map (fun r => ZipStr (Store.Zipcode r)) rows.

(** ** Classification of a per-zipcode summary *)

Inductive param : Type := P_pH | Turbidity | Dissolved_Oxygen | Nitrate.

(** [safe_ranges]. *)
Definition safe_ranges (p : param) : float * float :=
  match p with
  | P_pH => (f6_5, f8_5)
  | Turbidity => (f0, f5)
  | Dissolved_Oxygen => (f5, f14)
  | Nitrate => (f0, f10)
  end.

(** A row of [latest_data]: the means of one zip code. *)
Record summary : Type := mkSummary {
  mean_pH : float;
  mean_Turbidity : float;
  mean_Dissolved_Oxygen : float;
  mean_Nitrate : float
}.

Definition get (row : summary) (p : param) : float :=
  match p with
  | P_pH => mean_pH row
  | Turbidity => mean_Turbidity row
  | Dissolved_Oxygen => mean_Dissolved_Oxygen row
  | Nitrate => mean_Nitrate row
  end.

Inductive verdict : Type := Safe | Alert.

Definition notna (x : float) : bool :=
  match x with
  | S754_nan => false
  | _ => true
  end.

(** Lines 82-86 and 101-102: the status shown for a parameter, or [None]
    when the page shows "No data available". *)
Definition classify (row : summary) (p : param) : option verdict :=
  let current_value := get row p in
  if notna current_value then
    let in_safe_range :=
      between (fst (safe_ranges p)) (snd (safe_ranges p)) current_value in
    Some (if in_safe_range then Safe else Alert)
  else None.

(** Lines 106-109: the condition of "General Water Safety". *)
Definition overall_safe (row : summary) : bool :=
  forallb (fun b : bool => b)
    [ between (fst (safe_ranges P_pH)) (snd (safe_ranges P_pH))
        (get row P_pH);
      SFleb (get row Turbidity) (snd (safe_ranges Turbidity));
      between (fst (safe_ranges Dissolved_Oxygen))
        (snd (safe_ranges Dissolved_Oxygen)) (get row Dissolved_Oxygen);
      SFleb (get row Nitrate) (snd (safe_ranges Nitrate)) ].

(** The rational bounds of [safe_ranges]. *)
Definition safe_interval (p : param) : Q * Q :=
  match p with
  | P_pH => (13 # 2, 17 # 2)%Q
  | Turbidity => (0, 5)%Q
  | Dissolved_Oxygen => (5, 14)%Q
  | Nitrate => (0, 10)%Q
  end.

(** [x] is [-inf] or a number at most [hi]. *)
Definition at_most (hi : Q) (x : float) : Prop :=
  match x with
  | S754_infinity true => True
  | S754_infinity false | S754_nan => False
  | _ => (value x <= hi)%Q
  end.


(** The parameters in the order of [learning_info]. *)
Definition parameters : list param :=
  [P_pH; Turbidity; Dissolved_Oxygen; Nitrate].

(** [max(a, b)] and [min(a, b)] of Python: the first argument unless the
    second is greater, or less. *)
Definition py_max (a b : float) : float := if SFltb a b then b else a.
Definition py_min (a b : float) : float := if SFltb b a then b else a.

(** [math.isclose(a, b, rel_tol=1e-9, abs_tol=1e-9)]. *)
Definition isclose (a b : float) : bool :=
  if SFeqb a b then true
  else if is_inf a || is_inf b then false
  else
    let diff := SFabs (sub b a) in
    SFleb diff (SFabs (mul f1e_9 b))
    || SFleb diff (SFabs (mul f1e_9 a))
    || SFleb diff f1e_9.

(** The test of [st.progress] on a float: between 0 and 1, or close to one
    of the two. Any other value raises. *)
Definition progress_accepts (value : float) : bool :=
  between f0 f1 value || isclose value f0 || isclose value f1.

(** What a part of the page gives: its output, or the exception of
    [st.progress]. *)
Inductive shown (A : Type) : Type :=
| Shown (a : A)
| StreamlitAPIException.
Arguments Shown {A} a.
Arguments StreamlitAPIException {A}.

(** Lines 82-102 for one parameter: the status, then the progress bar. *)
Definition show_parameter (row : summary) (p : param)
  : shown (option verdict) :=
  let current_value := get row p in
  if notna current_value then
    let in_safe_range :=
      between (fst (safe_ranges p)) (snd (safe_ranges p)) current_value in
    let max_display := py_max (snd (safe_ranges p)) current_value in
    if progress_accepts (py_min (div current_value max_display) f1)
    then Shown (Some (if in_safe_range then Safe else Alert))
    else StreamlitAPIException
  else Shown None.

Fixpoint show_parameters (row : summary) (ps : list param)
  : shown (list (option verdict)) :=
  match ps with
  | [] => Shown []
  | p :: rest =>
      match show_parameter row p with
      | Shown v =>
          match show_parameters row rest with
          | Shown vs => Shown (v :: vs)
          | StreamlitAPIException => StreamlitAPIException
          end
      | StreamlitAPIException => StreamlitAPIException
      end
  end.

(** Lines 69-112 for one zip code: the four statuses, then the condition
    of "General Water Safety". *)
Definition show_row (row : summary) : shown (list (option verdict) * bool) :=
  match show_parameters row parameters with
  | Shown verdicts => Shown (verdicts, overall_safe row)
  | StreamlitAPIException => StreamlitAPIException
  end.


Definition all_safe (row : summary) : Prop :=
  forall p, classify row p = Some Safe.


(** Means with a turbidity of 6.0. *)
Definition turbid_row : summary := mkSummary f7 f6 f8 f1.

(** Means with a turbidity of -1.0. *)
Definition negative_turbidity_row : summary := mkSummary f7 fm1 f8 f1.



Lemma SFleb_at_most (hi : Q) (c x : float) :
  denotes c hi -> is_float x = true ->
  SFleb x c = true <-> at_most hi x.
Proof.
  intros (Vc & Fc & Hc) Vx.
  destruct x as [s | [|] | | s m e]; cbn [at_most].
  - rewrite (SFleb_scaled _ c Vx Vc eq_refl Fc).
    rewrite <- Hc. unfold value. rewrite Qle_scaled. reflexivity.
  - destruct c; try discriminate Fc; split; auto.
  - destruct c; try discriminate Fc; (split; [discriminate | intros []]).
  - destruct c; (split; [discriminate | intros []]).
  - rewrite (SFleb_scaled _ c Vx Vc eq_refl Fc).
    rewrite <- Hc. unfold value. rewrite Qle_scaled. reflexivity.
Qed.







(** ** The progress bars *)








Example turbid_row_shown :
  show_row turbid_row
  = Shown ([Some Safe; Some Alert; Some Safe; Some Safe], false).
Proof. vm_compute. reflexivity. Qed.


Example progress_raises_below_zero :
  show_row negative_turbidity_row = StreamlitAPIException
  /\ show_row (mkSummary f7 pos_inf f8 f1) = StreamlitAPIException
  /\ show_row (mkSummary f7 neg_inf f8 f1) = StreamlitAPIException.
Proof. repeat split; vm_compute; reflexivity. Qed.

Example page_reaches_verdict :
  show_row (mkSummary f7 f1 f8 f1)
  = Shown ([Some Safe; Some Safe; Some Safe; Some Safe], true)
  /\ show_row (mkSummary nan f1 f8 f1)
     = Shown ([None; Some Safe; Some Safe; Some Safe], false)
  /\ show_row (mkSummary f9 f12 f1 f20)
     = Shown ([Some Alert; Some Alert; Some Alert; Some Alert], false).
Proof. repeat split; vm_compute; reflexivity. Qed.

Example classify_no_data :
  classify (mkSummary nan f1 f8 f1) P_pH = None
  /\ overall_safe (mkSummary nan f1 f8 f1) = false.
Proof. split; reflexivity. Qed.

(** ** The zip code after a reload *)

(** C9, on the input ["95110"]: the loader of this page returns the integer
    [95110] where the loaders of the two other pages return the string; a
    leading zero is lost. *)
Lemma home_page_zipcode_is_integer :
  read_csv_zipcodes (Store.append Store.sample []) = [ZipInt 95110]
  /\ read_csv_zipcodes_str (Store.append Store.sample []) = [ZipStr "95110"]
  /\ read_csv_zipcodes
       [Store.mkReading "01234" "2024-11-05" f7 f1 f8 f1] = [ZipInt 1234].
Proof. repeat split. Qed.

End Home.

(* ===================================================================== *)
(** * Aggregation per zip code (3_OrgUseData_Dashboard.py) *)
(* ===================================================================== *)

Module Dashboard.
Import Float64.

Local Open Scope string_scope.
Local Open Scope list_scope.

(** A cell of a measurement column after [pd.read_csv]: a number, a text
    (in a column that the reader did not take for a numeric one), or
    nothing. *)
Inductive cell : Type :=
| Num (x : float)
| Text (s : string)
| Empty.

Inductive column : Type := pH | Turbidity | Dissolved_Oxygen | Nitrate.

Definition columns : list column :=
  [pH; Turbidity; Dissolved_Oxygen; Nitrate].

(** A row of [data] as read, with [dtype={"Zipcode": str}]: the zip code is
    a string, or missing. *)
Record raw_row : Type := mkRaw {
  raw_Zipcode : option string;
  raw_Date : string;
  raw_cell : column -> cell
}.

(** A row after the conversion of lines 27-28: a binary64 number, NaN
    included, in every measurement column. *)
Record row : Type := mkRow {
  Zipcode : option string;
  Date : string;
  measure : column -> float
}.

(** A row of [zipcode_summary]. *)
Record ZipSummary : Type := mkZipSummary {
  summary_Zipcode : string;
  summary_mean : column -> float
}.

(** The mean of a group as pandas computes it ([group_mean]): one pass
    over the values in row order that skips NaN, counts the others and adds
    them up with a running compensation (Kahan), the compensation being
    reset when it is NaN; then the sum over the count, NaN when the count
    is zero. *)
Record accumulator : Type := mkAcc {
  nobs : nat;
  sumx : float;
  compensation : float
}.

Definition start : accumulator := mkAcc 0 f0 f0.

Definition accumulate (a : accumulator) (val : float) : accumulator :=
  if is_nan val then a
  else
    let y := sub val (compensation a) in
    let t := add (sumx a) y in
    let c := sub (sub t (sumx a)) y in
    mkAcc (S (nobs a)) t (if is_nan c then f0 else c).

Definition mean (xs : list float) : float :=
  let a := fold_left accumulate xs start in
  match nobs a with
  | O => nan
  | S _ => div (sumx a) (of_nat (nobs a))
  end.

(** The keys of [groupby]: distinct, in ascending order. *)
Fixpoint insert_key (k : string) (ks : list string) : list string :=
  match ks with
  | [] => [k]
  | k' :: rest =>
      match String.compare k k' with
      | Lt => k :: ks
      | Eq => ks
      | Gt => k' :: insert_key k rest
      end
  end.

(** Rows with a missing key are left out ([dropna=True]). *)
Definition group_keys (rows : list row) : list string :=
  fold_right (fun r ks => match Zipcode r with
                          | Some z => insert_key z ks
                          | None => ks
                          end) [] rows.

Definition in_group (z : string) (r : row) : bool :=
  match Zipcode r with
  | Some z' => String.eqb z z'
  | None => false
  end.

(** [data.groupby("Zipcode").mean(numeric_only=True).reset_index()]. *)
Definition groupby_mean (rows : list row) : list ZipSummary :=
  map (fun z =>
         mkZipSummary z
           (fun c => mean (map (fun r => measure r c) (filter (in_group z) rows))))
      (group_keys rows).

(** [data.dropna(subset=[...], how="all")]: a row goes when its four
    measurements are all NaN. *)
Definition dropna_all (rows : list row) : list row :=
  filter (fun r => existsb (fun c => negb (is_nan (measure r c))) columns)
    rows.

Section Numeric.

(** The conversion of a text cell by [pd.to_numeric]: the number that the
    text denotes, NaN when it denotes none. *)
Variable str_to_num : string -> float.

(** [pd.to_numeric(data[col], errors="coerce")] on a cell. *)
Definition to_numeric (c : cell) : float :=
  match c with
  | Num x => x
  | Text s => str_to_num s
  | Empty => nan
  end.

Definition coerce (r : raw_row) : row :=
  mkRow (raw_Zipcode r) (raw_Date r) (fun c => to_numeric (raw_cell r c)).

(** Lines 27-31 and 101. *)
Definition zipcode_summary (data : list raw_row) : list ZipSummary :=
  groupby_mean (dropna_all (map coerce data)).

(** ** What the summary is compared with *)

(** The number in a cell, if there is one: the number read, or the number
    that the text denotes. *)
Definition cell_number (c : cell) : option float :=
  match c with
  | Num x => if is_nan x then None else Some x
  | Text s => if is_nan (str_to_num s) then None else Some (str_to_num s)
  | Empty => None
  end.

(** The numeric values of column [c] over the rows of zip code [z], in file
    order; a row whose cell holds no number gives none. *)
Definition numeric_values (c : column) (z : string) (data : list raw_row)
  : list float :=
  flat_map (fun r =>
              match raw_Zipcode r, cell_number (raw_cell r c) with
              | Some z', Some v => if String.eqb z z' then [v] else []
              | _, _ => []
              end) data.

(** The row has a zip code [z] and a number in some column. *)
Definition has_measurement (z : string) (r : raw_row) : Prop :=
  raw_Zipcode r = Some z
  /\ exists c, is_nan (to_numeric (raw_cell r c)) = false.

End Numeric.





Definition ascending (ks : list string) : Prop :=
  StronglySorted (fun a b => String.compare a b = Lt) ks.

(** Converters for the examples: one for which no text is a number, and
    one that knows two texts. *)
Definition no_number (_ : string) : float := nan.

Definition two_numbers (s : string) : float :=
  if String.eqb s "7.0" then f7
  else if String.eqb s "8.0" then f8
  else nan.

Definition cells (a b c d : cell) (col : column) : cell :=
  match col with
  | pH => a
  | Turbidity => b
  | Dissolved_Oxygen => c
  | Nitrate => d
  end.


(** The same two rows in a file whose pH column was read as text. *)
Definition two_text_rows : list raw_row :=
  [ mkRaw (Some "95110") "2024-11-05"
      (cells (Text "7.0") (Num f1) (Num f8) (Num f1));
    mkRaw (Some "95110") "2024-11-06"
      (cells (Text "8.0") (Text "cloudy") (Num f8) Empty) ].

Definition summary_95110 : ZipSummary :=
  mkZipSummary "95110"
    (fun c => mean (map (fun r => measure r c)
                      (filter (in_group "95110")
                         (dropna_all
                            (map (coerce two_numbers) two_text_rows))))).

(** Three rows for 95110 with pH 6.9, 7.2 and 8.2, in two orders. *)
Definition pH_row (x : float) : raw_row :=
  mkRaw (Some "95110") "2024-11-05" (cells (Num x) Empty Empty Empty).

Definition three_rows : list raw_row :=
  [pH_row f6_9; pH_row f7_2; pH_row f8_2].

Definition three_rows_reordered : list raw_row :=
  [pH_row f7_2; pH_row f8_2; pH_row f6_9].


(** A row with a zip code and no number at all. *)
Definition blank_row : raw_row :=
  mkRaw (Some "95112") "2024-11-05" (cells Empty (Text "n/a") Empty Empty).


(** ** The mean skips NaN *)



(** ** The keys of the groups *)

Lemma compare_refl (a : string) : String.compare a a = Eq.
Proof. apply String_as_OT.cmp_eq. reflexivity. Qed.

Lemma compare_lt_trans (a b c : string) :
  String.compare a b = Lt -> String.compare b c = Lt ->
  String.compare a c = Lt.
Proof.
  intros H1 H2. apply String_as_OT.cmp_lt.
  apply String_as_OT.lt_trans with b; apply String_as_OT.cmp_lt; assumption.
Qed.

Lemma compare_gt_lt (a b : string) :
  String.compare a b = Gt -> String.compare b a = Lt.
Proof.
  intros H. rewrite String.compare_antisym, H. reflexivity.
Qed.

Lemma in_insert_key (x k : string) (ks : list string) :
  In x (insert_key k ks) <-> x = k \/ In x ks.
Proof.
  induction ks as [| k' rest IH]; cbn [insert_key].
  - cbn. intuition.
  - destruct (String.compare k k') eqn:Hc.
    + apply String.compare_eq_iff in Hc. subst k'. cbn. intuition.
    + cbn. intuition.
    + cbn [In]. rewrite IH. intuition.
Qed.

Lemma insert_key_ascending (k : string) (ks : list string) :
  ascending ks -> ascending (insert_key k ks).
Proof.
  unfold ascending.
  induction ks as [| k' rest IH]; intros Hs; cbn [insert_key].
  - repeat constructor.
  - inversion Hs as [| ? ? Hrest Hall]; subst.
    destruct (String.compare k k') eqn:Hc.
    + exact Hs.
    + constructor; [exact Hs|]. constructor; [exact Hc|].
      rewrite Forall_forall in *. intros x Hx.
      apply compare_lt_trans with k'; auto.
    + constructor; [apply IH; exact Hrest|].
      rewrite Forall_forall in *. intros x Hx.
      apply in_insert_key in Hx. destruct Hx as [-> | Hx]; auto.
      apply compare_gt_lt. exact Hc.
Qed.

Lemma ascending_NoDup (ks : list string) : ascending ks -> NoDup ks.
Proof.
  unfold ascending. induction 1 as [| k ks Hs IH Hall]; constructor; auto.
  intros Hin. rewrite Forall_forall in Hall. specialize (Hall k Hin).
  rewrite compare_refl in Hall. discriminate.
Qed.

Lemma group_keys_ascending (rows : list row) : ascending (group_keys rows).
Proof.
  induction rows as [| r rows IH]; cbn [group_keys fold_right].
  - constructor.
  - destruct (Zipcode r); [apply insert_key_ascending|]; exact IH.
Qed.

Lemma in_group_keys (z : string) (rows : list row) :
  In z (group_keys rows) <-> exists r, In r rows /\ Zipcode r = Some z.
Proof.
  induction rows as [| r rows IH]; cbn [group_keys fold_right].
  - split; [intros [] | intros (r & [] & _)].
  - fold (group_keys rows). destruct (Zipcode r) as [z'|] eqn:Hz.
    + rewrite in_insert_key, IH. split.
      * intros [-> | (r' & Hin & Hr')].
        -- exists r. split; [left; reflexivity | exact Hz].
        -- exists r'. split; [right; exact Hin | exact Hr'].
      * intros (r' & [<- | Hin] & Hr').
        -- left. congruence.
        -- right. exists r'. split; assumption.
    + rewrite IH. split.
      * intros (r' & Hin & Hr'). exists r'. split; [right|]; assumption.
      * intros (r' & [<- | Hin] & Hr'); [congruence|].
        exists r'. split; assumption.
Qed.

Lemma summary_zipcodes (rows : list row) :
  map summary_Zipcode (groupby_mean rows) = group_keys rows.
Proof.
  unfold groupby_mean. rewrite map_map. cbn [summary_Zipcode].
  apply map_id.
Qed.

Section Facts.

Variable str_to_num : string -> float.


Lemma kept_iff (r : raw_row) :
  existsb (fun c => negb (is_nan (measure (coerce str_to_num r) c))) columns
  = true
  <-> exists c, is_nan (to_numeric str_to_num (raw_cell r c)) = false.
Proof.
  rewrite existsb_exists. cbn [coerce measure]. split.
  - intros (c & _ & Hc). exists c. apply negb_true_iff. exact Hc.
  - intros (c & Hc). exists c. split.
    + destruct c; cbn; auto.
    + apply negb_true_iff. exact Hc.
Qed.



End Facts.




Example summary_95110_means :
  map (summary_mean summary_95110) columns = [f7_5; f1; f8; f1]
  /\ map (fun c => numeric_values two_numbers c "95110" two_text_rows)
       columns
     = [[f7; f8]; [f1]; [f8; f8]; [f1]].
Proof. split; reflexivity. Qed.


(** Infinite values are numbers: a column holding [+inf] and [-inf] has
    the mean NaN. *)
Example mean_of_infinities :
  map (fun s => map (summary_mean s) columns)
    (zipcode_summary no_number [pH_row pos_inf; pH_row neg_inf])
  = [[nan; nan; nan; nan]].
Proof. vm_compute. reflexivity. Qed.

(** C6 (as the code has it). The summary has one row for each zip code
    that occurs in a row with a number in at least one of the four columns,
    and no other row; the zip codes come in ascending order, without
    repetition; an empty input gives an empty summary. *)
Theorem zipcode_summary_groups (str_to_num : string -> float)
  (data : list raw_row) :
  ascending (map summary_Zipcode (zipcode_summary str_to_num data))
  /\ NoDup (map summary_Zipcode (zipcode_summary str_to_num data))
  /\ (forall z,
        In z (map summary_Zipcode (zipcode_summary str_to_num data))
        <-> exists r, In r data /\ has_measurement str_to_num z r)
  /\ zipcode_summary str_to_num [] = [].
Proof.
  unfold zipcode_summary. rewrite summary_zipcodes.
  split; [apply group_keys_ascending|].
  split; [apply ascending_NoDup, group_keys_ascending|].
  split; [|reflexivity].
  intros z. rewrite in_group_keys. unfold dropna_all, has_measurement. split.
  - intros (r' & Hin & Hz). apply filter_In in Hin. destruct Hin as [Hin Hk].
    apply in_map_iff in Hin. destruct Hin as (r & <- & Hin).
    exists r. split; [exact Hin|]. split; [exact Hz|].
    apply kept_iff. exact Hk.
  - intros (r & Hin & Hz & Hk). exists (coerce str_to_num r). split.
    + apply filter_In. split; [apply in_map; exact Hin|].
      apply kept_iff. exact Hk.
    + exact Hz.
Qed.

(** C6 fails as stated: the zip code 95112 is present in the input, in a
    row without any number, and has no summary. *)
Lemma zipcode_without_summary :
  In blank_row [blank_row]
  /\ raw_Zipcode blank_row = Some "95112"
  /\ zipcode_summary no_number [blank_row] = [].
Proof. repeat split. left. reflexivity. Qed.

Example summary_order :
  map summary_Zipcode
    (zipcode_summary no_number
       [ mkRaw (Some "95120") "2024-11-05" (cells (Num f7) Empty Empty Empty);
         mkRaw (Some "95110") "2024-11-05" (cells (Num f8) Empty Empty Empty);
         mkRaw None "2024-11-05" (cells (Num f8) Empty Empty Empty);
         mkRaw (Some "95120") "2024-11-06" (cells (Num f6) Empty Empty Empty) ])
  = ["95110"; "95120"].
Proof. reflexivity. Qed.

End Dashboard.

(* ===================================================================== *)
(** * The entry page as a whole (2_Manual_Input.py) *)
(* ===================================================================== *)

Module Entry.
Import Float64.
Import Py.
Import Store.

Local Open Scope string_scope.
Local Open Scope list_scope.

(** [recent_data.iterrows()]: the rows of the loaded frame, each with its
    label in the index [0 .. n-1]. *)
Definition iterrows (recent_data : list Row) : list (Z * Row) :=
  combine (map Z.of_nat (seq 0 (List.length recent_data))) recent_data.

(** [tail(5)] keeps the last five rows under the labels they had. *)
Definition tail (n : nat) (entries : list (Z * Row)) : list (Z * Row) :=
  skipn (List.length entries - n) entries.

(** The entries listed under "Review Recent Data Submissions" (line 136),
    one delete button each. *)
Definition recent_entries (recent_data : list Row) : list (Z * Row) :=
  tail 5 (iterrows recent_data).

(** A row that the form accepts: a zip code and four values in range. *)
Definition in_safe_ranges (r : Reading) : Prop :=
  Zipcode r <> ""
  /\ in_interval (13 # 2) (17 # 2) (pH r)
  /\ in_interval 0 5 (Turbidity r)
  /\ in_interval 5 14 (Dissolved_Oxygen r)
  /\ in_interval 0 10 (Nitrate r).

(** The four measurements of a row are within the safe ranges. *)
Definition values_in_range (r : Reading) : Prop :=
  in_interval (13 # 2) (17 # 2) (pH r)
  /\ in_interval 0 5 (Turbidity r)
  /\ in_interval 5 14 (Dissolved_Oxygen r)
  /\ in_interval 0 10 (Nitrate r).


(** A list without its entry at position [i]. *)
Definition without {A : Type} (i : nat) (l : list A) : list A :=
  firstn i l ++ skipn (S i) l.

Definition second : Reading :=
  mkReading "95112" "2024-11-06" f8 f1 f9 f5.

Definition third : Reading :=
  mkReading "95126" "2024-11-07" f7 f3 f9 f1.

Definition six_rows : list Reading :=
  [sample; second; sample; second; sample; second].

Definition seven_rows : list Reading :=
  [sample; second; third; sample_NA; third; second; sample].

(** ** Lists *)

Lemma in_skipn (A : Type) (n : nat) (l : list A) (x : A) :
  In x (skipn n l) -> In x l.
Proof.
  intros H. rewrite <- (firstn_skipn n l). apply in_or_app. right. exact H.
Qed.

Lemma in_firstn (A : Type) (n : nat) (l : list A) (x : A) :
  In x (firstn n l) -> In x l.
Proof.
  intros H. rewrite <- (firstn_skipn n l). apply in_or_app. left. exact H.
Qed.

Lemma in_without (A : Type) (i : nat) (l : list A) (x : A) :
  In x (without i l) -> In x l.
Proof.
  unfold without. intros H. apply in_app_or in H. destruct H as [H | H].
  - eapply in_firstn; eauto.
  - eapply in_skipn; eauto.
Qed.

Lemma without_map (A B : Type) (f : A -> B) (i : nat) (l : list A) :
  without i (map f l) = map f (without i l).
Proof.
  unfold without. rewrite firstn_map, skipn_map, map_app. reflexivity.
Qed.





Lemma skipn_combine (A B : Type) (k : nat) (l : list A) (l' : list B) :
  skipn k (combine l l') = combine (skipn k l) (skipn k l').
Proof.
  revert l l'. induction k as [| k IH]; intros l l'; [reflexivity|].
  destruct l as [| a l]; [reflexivity|].
  destruct l' as [| b l'].
  - cbn [combine skipn]. rewrite combine_nil. reflexivity.
  - cbn [combine skipn]. apply IH.
Qed.

Lemma map_fst_combine (A B : Type) (l : list A) (l' : list B) :
  List.length l = List.length l' -> map fst (combine l l') = l.
Proof.
  revert l'. induction l as [| a l IH]; intros [| b l'] Hlen;
    try discriminate Hlen; [reflexivity|].
  cbn. f_equal. apply IH. cbn in Hlen. lia.
Qed.

Lemma map_snd_combine (A B : Type) (l : list A) (l' : list B) :
  List.length l = List.length l' -> map snd (combine l l') = l'.
Proof.
  revert l'. induction l as [| a l IH]; intros [| b l'] Hlen;
    try discriminate Hlen; [reflexivity|].
  cbn. f_equal. apply IH. cbn in Hlen. lia.
Qed.

(** ** The rows of a frame and their labels *)

Lemma in_iterrows_from (frame : list Row) (start : nat) (idx : Z)
  (r : Row) :
  In (idx, r) (combine (map Z.of_nat (seq start (List.length frame))) frame) ->
  exists i, idx = Z.of_nat (start + i) /\ nth_error frame i = Some r.
Proof.
  revert start. induction frame as [| r0 frame IH]; intros start Hin.
  - destruct Hin.
  - cbn in Hin. destruct Hin as [Heq | Hin].
    + injection Heq as <- <-. exists 0%nat.
      split; [f_equal; lia | reflexivity].
    + apply IH in Hin. destruct Hin as (i & -> & Hi).
      exists (S i). split; [f_equal; lia | exact Hi].
Qed.

Lemma length_iterrows (frame : list Row) :
  List.length (iterrows frame) = List.length frame.
Proof.
  unfold iterrows. rewrite length_combine, length_map, length_seq. lia.
Qed.

Lemma recent_entries_labels_rows (frame : list Row) :
  map fst (recent_entries frame)
  = map Z.of_nat (seq (List.length frame - 5)
                    (Nat.min 5 (List.length frame)))
  /\ map snd (recent_entries frame) = skipn (List.length frame - 5) frame.
Proof.
  unfold recent_entries, tail. rewrite length_iterrows.
  unfold iterrows. rewrite skipn_combine.
  assert (Hlen : List.length
                   (skipn (List.length frame - 5)
                      (map Z.of_nat (seq 0 (List.length frame))))
                 = List.length (skipn (List.length frame - 5) frame)).
  { rewrite !length_skipn, length_map, length_seq. reflexivity. }
  rewrite (map_fst_combine _ _ _ _ Hlen), (map_snd_combine _ _ _ _ Hlen).
  split; [|reflexivity].
  rewrite skipn_map, skipn_seq. f_equal. f_equal; lia.
Qed.

(** ** The delete button *)

Lemma drop_in_range (i : nat) (frame : list Row) :
  (i < List.length frame)%nat ->
  drop (Z.of_nat i) frame = Ok (without i frame).
Proof.
  intros Hi. unfold drop.
  replace (0 <=? Z.of_nat i)%Z with true by (symmetry; apply Z.leb_le; lia).
  replace (Z.of_nat i <? Z.of_nat (List.length frame))%Z with true
    by (symmetry; apply Z.ltb_lt; lia).
  cbn [andb]. rewrite Nat2Z.id. reflexivity.
Qed.

Lemma to_csv_frame_of (rows : list Reading) :
  to_csv (frame_of rows) = map rewritten rows.
Proof. unfold to_csv, frame_of. rewrite map_map. reflexivity. Qed.

Lemma frame_of_rewritten (rows : list Reading) :
  frame_of (map rewritten rows) = frame_of rows.
Proof.
  unfold frame_of. rewrite map_map. apply map_ext. exact read_rewritten.
Qed.


Lemma delete_entry_in_range (i : nat) (rows : list Reading) :
  (i < List.length rows)%nat ->
  delete_entry (Z.of_nat i) rows = (Ok tt, map rewritten (without i rows)).
Proof.
  intros Hi. unfold delete_entry, load_all, bind.
  rewrite drop_in_range by (rewrite length_frame_of; exact Hi).
  unfold frame_of. rewrite without_map. fold (frame_of (without i rows)).
  rewrite to_csv_frame_of. reflexivity.
Qed.

Lemma delete_entry_rows (idx : Z) (rows : list Reading) :
  snd (delete_entry idx rows) = rows
  \/ exists i, snd (delete_entry idx rows) = map rewritten (without i rows).
Proof.
  unfold delete_entry, load_all, bind, drop.
  destruct ((0 <=? idx)%Z && (idx <? Z.of_nat (List.length (frame_of rows)))%Z).
  - right. exists (Z.to_nat idx). cbn [snd].
    fold (without (Z.to_nat idx) (frame_of rows)).
    unfold frame_of. rewrite without_map.
    fold (frame_of (without (Z.to_nat idx) rows)).
    apply to_csv_frame_of.
  - left. reflexivity.
Qed.

Lemma values_in_range_rewritten (r : Reading) :
  values_in_range r -> values_in_range (rewritten r).
Proof. intros H. exact H. Qed.





(** The two files of X2 differ when the new row has the zip text NA. *)
Example delete_then_append_keeps_NA :
  snd (delete_entry 0 (append sample_NA [sample; second]))
  = [second; mkReading "" "2024-11-05" f7 f1 f8 f1]
  /\ append sample_NA (snd (delete_entry 0 [sample; second]))
     = [second; sample_NA].
Proof. split; reflexivity. Qed.

(** X3. The page lists exactly the last five rows of the loaded frame, in
    file order and under their own labels [n-5 .. n-1], or all the rows
    under [0 .. n-1] when there are fewer than five; so the delete button of
    a listed entry always succeeds and removes from the loaded frame the row
    shown next to it. *)
Theorem recent_entries_last_five (rows : list Reading) :
  map fst (recent_entries (frame_of rows))
  = map Z.of_nat (seq (List.length rows - 5)
                    (Nat.min 5 (List.length rows)))
  /\ map snd (recent_entries (frame_of rows))
     = skipn (List.length rows - 5) (frame_of rows)
  /\ List.length (recent_entries (frame_of rows))
     = Nat.min 5 (List.length rows)
  /\ (forall idx row, In (idx, row) (recent_entries (frame_of rows)) ->
        (Z.of_nat (List.length rows) - 5 <= idx)%Z
        /\ (0 <= idx < Z.of_nat (List.length rows))%Z
        /\ nth_error (frame_of rows) (Z.to_nat idx) = Some row
        /\ fst (delete_entry idx rows) = Ok tt
        /\ load_all (snd (delete_entry idx rows))
           = Ok (without (Z.to_nat idx) (frame_of rows))).
Proof.
  destruct (recent_entries_labels_rows (frame_of rows)) as [Hfst Hsnd].
  rewrite length_frame_of in Hfst, Hsnd.
  split; [exact Hfst|]. split; [exact Hsnd|]. split.
  { unfold recent_entries, tail.
    rewrite length_skipn, length_iterrows, length_frame_of. lia. }
  intros idx row Hin.
  assert (Hlabel : In idx (map fst (recent_entries (frame_of rows))))
    by (apply in_map_iff; exists (idx, row); split; [reflexivity | exact Hin]).
  rewrite Hfst in Hlabel. apply in_map_iff in Hlabel.
  destruct Hlabel as (k & <- & Hk). apply in_seq in Hk.
  unfold recent_entries, tail in Hin. apply in_skipn in Hin.
  apply in_iterrows_from in Hin. destruct Hin as (i & Heq & Hi).
  cbn [Nat.add] in Heq. apply Nat2Z.inj in Heq. subst i.
  rewrite Nat2Z.id.
  assert (Hlt : (k < List.length rows)%nat).
  { rewrite <- length_frame_of. apply nth_error_Some. rewrite Hi.
    discriminate. }
  split; [lia|]. split; [lia|]. split; [exact Hi|].
  rewrite (delete_entry_in_range k rows Hlt). cbn [fst snd].
  split; [reflexivity|].
  unfold load_all. rewrite frame_of_rewritten.
  unfold frame_of. rewrite without_map. reflexivity.
Qed.

Example recent_entries_labels :
  map fst (recent_entries (frame_of six_rows)) = [1; 2; 3; 4; 5]%Z
  /\ map fst (recent_entries (frame_of [sample; second])) = [0; 1]%Z
  /\ recent_entries (frame_of []) = []
  /\ map snd (recent_entries (frame_of seven_rows))
     = [read_row third; mkRow None "2024-11-05" f7 f1 f8 f1; read_row third;
        read_row second; read_row sample].
Proof. repeat split. Qed.

(** ** The submit button *)

Lemma no_warning_iff (ph t d n : float) :
  is_float ph = true -> is_float t = true ->
  is_float d = true -> is_float n = true ->
  Validator.validate_data ph t d n = []
  <-> in_interval (13 # 2) (17 # 2) ph /\ in_interval 0 5 t
      /\ in_interval 5 14 d /\ in_interval 0 10 n.
Proof.
  intros Vp Vt Vd Vn.
  rewrite Validator.validate_data_flags, Validator.flags_nil.
  rewrite !negb_false_iff.
  rewrite (between_spec _ _ _ _ ph denotes_f6_5 denotes_f8_5 Vp).
  rewrite (between_spec _ _ _ _ t denotes_f0 denotes_f5 Vt).
  rewrite (between_spec _ _ _ _ d denotes_f5 denotes_f14 Vd).
  rewrite (between_spec _ _ _ _ n denotes_f0 denotes_f10 Vn).
  reflexivity.
Qed.

Lemma submit_cases (zipcode date : string) (ph t d n : float)
  (rows : list Reading) :
  is_float ph = true -> is_float t = true ->
  is_float d = true -> is_float n = true ->
  (in_safe_ranges (mkReading zipcode date ph t d n)
   /\ submit zipcode date ph t d n rows
      = ([], rows ++ [mkReading zipcode date ph t d n]))
  \/ (~ in_safe_ranges (mkReading zipcode date ph t d n)
      /\ fst (submit zipcode date ph t d n rows) <> []
      /\ snd (submit zipcode date ph t d n rows) = rows).
Proof.
  intros Vp Vt Vd Vn. unfold submit, in_safe_ranges.
  cbn [Zipcode pH Turbidity Dissolved_Oxygen Nitrate].
  pose proof (no_warning_iff ph t d n Vp Vt Vd Vn) as Hw.
  destruct (String.eqb_spec zipcode "") as [-> | Hz].
  - right. cbn [fst snd]. repeat split; [|discriminate].
    intros [H _]. apply H. reflexivity.
  - destruct (Validator.validate_data ph t d n) as [| w ws].
    + left. split; [|reflexivity]. split; [exact Hz|].
      apply Hw. reflexivity.
    + right. cbn [fst snd]. repeat split; [|discriminate].
      intros [_ H]. apply Hw in H. discriminate H.
Qed.

(** X4. "Submit Data" stores the reading, as the last row of the file and
    with no error or warning, exactly when the zip code is not empty and the
    four values are within their safe ranges; in every other case it reports
    the error or the warnings and leaves the file as it was. *)
Theorem submit_stores_iff_in_range (zipcode date : string) (ph t d n : float)
  (rows : list Reading) :
  is_float ph = true -> is_float t = true ->
  is_float d = true -> is_float n = true ->
  (fst (submit zipcode date ph t d n rows) = []
   <-> in_safe_ranges (mkReading zipcode date ph t d n))
  /\ (in_safe_ranges (mkReading zipcode date ph t d n) ->
      snd (submit zipcode date ph t d n rows)
      = rows ++ [mkReading zipcode date ph t d n])
  /\ (~ in_safe_ranges (mkReading zipcode date ph t d n) ->
      snd (submit zipcode date ph t d n rows) = rows).
Proof.
  intros Vp Vt Vd Vn.
  destruct (submit_cases zipcode date ph t d n rows Vp Vt Vd Vn)
    as [[Hin Hs] | (Hout & Hmsg & Hs)].
  - rewrite Hs. cbn [fst snd]. split; [|split].
    + split; [intros _; exact Hin | reflexivity].
    + reflexivity.
    + intros Hout. contradiction.
  - rewrite Hs. split; [|split].
    + split; intros H; contradiction.
    + intros Hin. contradiction.
    + reflexivity.
Qed.

Lemma submit_stores_iff_in_range_witness :
  (fst (submit "95110" "2024-11-05" f7 f6 f8 f1 [sample]) = []
   <-> in_safe_ranges (mkReading "95110" "2024-11-05" f7 f6 f8 f1))
  /\ (in_safe_ranges (mkReading "95110" "2024-11-05" f7 f6 f8 f1) ->
      snd (submit "95110" "2024-11-05" f7 f6 f8 f1 [sample])
      = [sample] ++ [mkReading "95110" "2024-11-05" f7 f6 f8 f1])
  /\ (~ in_safe_ranges (mkReading "95110" "2024-11-05" f7 f6 f8 f1) ->
      snd (submit "95110" "2024-11-05" f7 f6 f8 f1 [sample]) = [sample]).
Proof.
  apply (submit_stores_iff_in_range "95110" "2024-11-05" f7 f6 f8 f1
           [sample]); reflexivity.
Defined.

(** X5. A file whose rows all have their four values within the safe
    ranges stays so under "Submit Data" and under every "Delete Entry": the
    page never writes an out-of-range measurement. (The zip text of a row is
    not kept by a delete, see [delete_rewrites_NA].) *)
Theorem page_keeps_values_in_range (zipcode date : string)
  (ph t d n : float) (idx : Z) (rows : list Reading) :
  is_float ph = true -> is_float t = true ->
  is_float d = true -> is_float n = true ->
  Forall values_in_range rows ->
  Forall values_in_range (snd (submit zipcode date ph t d n rows))
  /\ Forall values_in_range (snd (delete_entry idx rows)).
Proof.
  intros Vp Vt Vd Vn Hall. split.
  - destruct (submit_cases zipcode date ph t d n rows Vp Vt Vd Vn)
      as [[Hin Hs] | (_ & _ & Hs)]; rewrite Hs; [|exact Hall].
    cbn [snd]. apply Forall_app. split; [exact Hall|].
    constructor; [exact (proj2 Hin) | constructor].
  - destruct (delete_entry_rows idx rows) as [-> | [i ->]]; [exact Hall|].
    rewrite Forall_forall in *. intros x Hx.
    apply in_map_iff in Hx. destruct Hx as (y & <- & Hy).
    apply values_in_range_rewritten. apply Hall.
    eapply in_without; eauto.
Qed.

Lemma page_keeps_values_in_range_witness :
  Forall values_in_range [sample_NA; sample]
  /\ Forall values_in_range
       (snd (submit "95112" "2024-11-06" f8 f1 f9 f5 [sample_NA; sample]))
  /\ Forall values_in_range (snd (delete_entry 1 [sample_NA; sample])).
Proof.
  assert (H : Forall values_in_range [sample_NA; sample]).
  { repeat constructor; unfold Qle; cbn; discriminate. }
  split; [exact H|].
  apply (page_keeps_values_in_range "95112" "2024-11-06" f8 f1 f9 f5 1
           [sample_NA; sample]); try reflexivity.
  exact H.
Defined.

End Entry.

(* ===================================================================== *)
(** * More on the coordinate resolver (2_Manual_Input.py) *)
(* ===================================================================== *)

Module Geocoding.
Import Float64.
Import Py.
Import Resolver.

Local Open Scope string_scope.
Local Open Scope list_scope.

(** No entry of [items] is at a distance below [+inf] from the point. *)
Definition none_below_infinity (geodesic_miles : coord -> coord -> float)
  (lat lon : float) (items : list (string * coord)) : Prop :=
  forall z c, In (z, c) items ->
    SFltb (geodesic_miles (lat, lon) c) pos_inf = false.

(** An answer of the service with a postcode in its address. *)
Definition answer_with_postcode (postcode : json) : http_outcome :=
  Response 200
    (Some (JObject
             [("place_id", JNumber "1");
              ("address", JObject [("city", JString "San Jose");
                                   ("postcode", postcode)])])).

Section Loop.

Variable geodesic_miles : coord -> coord -> float.
Variables lat lon : float.

Lemma nearest_loop_found (items : list (string * coord)) (m : float)
  (z : string) :
  exists z',
    nearest_loop geodesic_miles lat lon items m (Some z) = Some z'
    /\ (z' = z \/ In z' (map fst items)).
Proof.
  revert m z. induction items as [| [z1 c1] rest IH]; intros m z.
  - exists z. split; [reflexivity | left; reflexivity].
  - cbn [nearest_loop map fst In].
    destruct (SFltb (geodesic_miles (lat, lon) c1) m).
    + destruct (IH (geodesic_miles (lat, lon) c1) z1) as (z' & Hz' & Hin).
      exists z'. split; [exact Hz'|]. right. destruct Hin; auto.
    + destruct (IH m z) as (z' & Hz' & Hin).
      exists z'. split; [exact Hz'|]. destruct Hin; auto.
Qed.

Lemma nearest_loop_none_iff (items : list (string * coord)) :
  nearest_loop geodesic_miles lat lon items pos_inf None = None
  <-> none_below_infinity geodesic_miles lat lon items.
Proof.
  unfold none_below_infinity.
  induction items as [| [z1 c1] rest IH]; cbn [nearest_loop].
  - split; [intros _ z c [] | reflexivity].
  - destruct (SFltb (geodesic_miles (lat, lon) c1) pos_inf) eqn:Hlt.
    + destruct (nearest_loop_found rest (geodesic_miles (lat, lon) c1) z1)
        as (z' & Hz' & _).
      rewrite Hz'. split; [discriminate|].
      intros H. specialize (H z1 c1 (or_introl eq_refl)). congruence.
    + rewrite IH. split.
      * intros H z c [Heq | Hin]; [|eauto].
        injection Heq as _ <-. exact Hlt.
      * intros H z c Hin. apply (H z c). right. exact Hin.
Qed.

Lemma nearest_loop_in_table (items : list (string * coord)) (z : string) :
  nearest_loop geodesic_miles lat lon items pos_inf None = Some z ->
  In z (map fst items).
Proof.
  induction items as [| [z1 c1] rest IH]; cbn [nearest_loop map fst In].
  - discriminate.
  - destruct (SFltb (geodesic_miles (lat, lon) c1) pos_inf).
    + destruct (nearest_loop_found rest (geodesic_miles (lat, lon) c1) z1)
        as (z' & Hz' & Hin).
      rewrite Hz'. intros [= <-]. destruct Hin; auto.
    + intros H. right. apply IH. exact H.
Qed.

End Loop.

(** X6. Whatever the distance function returns, [get_nearest_zipcode]
    gives [None] or one of the seven zip codes of the table, and it gives
    [None] exactly when no known location is at a distance that compares
    below [+inf] (every distance is NaN or [+inf]). *)
Theorem get_nearest_zipcode_range (geodesic_miles : coord -> coord -> float)
  (lat lon : float) :
  (get_nearest_zipcode geodesic_miles lat lon = None
   <-> none_below_infinity geodesic_miles lat lon known_zipcode_coords)
  /\ (forall z, get_nearest_zipcode geodesic_miles lat lon = Some z ->
        In z ["95110"; "95112"; "95113"; "95116"; "95117"; "95118"; "95120"]).
Proof.
  split.
  - apply nearest_loop_none_iff.
  - intros z Hz. apply nearest_loop_in_table in Hz. exact Hz.
Qed.

(** X7. When the service answers with a JSON object whose address member,
    if there is one, is itself an object, the resolver does not raise; and
    when the status is 200 and that address has a postcode, the result is
    that postcode as it is, whatever it is: the known locations are not
    consulted. *)
Theorem get_zipcode_object_answer
  (geodesic_miles : coord -> coord -> float) (lat lon : float)
  (status_code : Z) (members : list (string * json)) :
  (forall v, dict_get "address" members = Some v ->
     exists address, v = JObject address) ->
  (exists v,
      get_zipcode_from_coordinates geodesic_miles
        (Response status_code (Some (JObject members))) lat lon = Ok v)
  /\ (forall address postcode,
        status_code = 200%Z ->
        dict_get "address" members = Some (JObject address) ->
        dict_get "postcode" address = Some postcode ->
        get_zipcode_from_coordinates geodesic_miles
          (Response status_code (Some (JObject members))) lat lon
        = Ok postcode).
Proof.
  intros Hobj. cbn [get_zipcode_from_coordinates]. split.
  - destruct (Z.eqb status_code 200); [|eexists; reflexivity].
    cbn [py_contains bind py_getitem].
    destruct (dict_get "address" members) as [v|] eqn:Ha;
      [|eexists; reflexivity].
    destruct (Hobj v eq_refl) as [address ->].
    cbn [py_contains bind py_getitem].
    destruct (dict_get "postcode" address); eexists; reflexivity.
  - intros address postcode -> Ha Hp. cbn [Z.eqb Pos.eqb].
    cbn [py_contains bind py_getitem]. rewrite Ha.
    cbn [py_contains bind py_getitem]. rewrite Hp. reflexivity.
Qed.

Lemma get_zipcode_object_answer_witness :
  (exists v,
      get_zipcode_from_coordinates toy_miles
        (Response 200
           (Some (JObject
              [("address", JObject [("postcode", JString "95126-1234")])])))
        (fst san_jose) (snd san_jose) = Ok v)
  /\ (forall address postcode,
        200%Z = 200%Z ->
        dict_get "address"
          [("address", JObject [("postcode", JString "95126-1234")])]
        = Some (JObject address) ->
        dict_get "postcode" address = Some postcode ->
        get_zipcode_from_coordinates toy_miles
          (Response 200
             (Some (JObject
                [("address", JObject [("postcode", JString "95126-1234")])])))
          (fst san_jose) (snd san_jose)
        = Ok postcode).
Proof.
  apply (get_zipcode_object_answer toy_miles (fst san_jose) (snd san_jose)
           200 [("address", JObject [("postcode", JString "95126-1234")])]).
  intros v H. cbn in H. injection H as <-. eexists. reflexivity.
Defined.

Example postcode_null :
  get_zipcode_from_coordinates toy_miles (answer_with_postcode JNull)
    (fst san_jose) (snd san_jose) = Ok JNull.
Proof. reflexivity. Qed.

Example address_not_an_object :
  get_zipcode_from_coordinates toy_miles
    (Response 200 (Some (JObject [("address", JNull)])))
    (fst san_jose) (snd san_jose) = Raise TypeError.
Proof. reflexivity. Qed.

End Geocoding.

(* ===================================================================== *)
(** * The validator and the learning dashboard agree *)
(* ===================================================================== *)

Module Agreement.
Import Float64.
Import Home.

Local Open Scope list_scope.

(** The four means of a summary row, given to the validator of the entry
    page. *)
Definition validate_summary (row : summary) : list string :=
  Validator.validate_data (get row P_pH) (get row Turbidity)
    (get row Dissolved_Oxygen) (get row Nitrate).

Lemma between_notna (lo hi x : float) :
  between lo hi x = true -> notna x = true.
Proof.
  destruct x; try reflexivity.
  unfold between. destruct lo; discriminate.
Qed.

Lemma classify_safe_between (row : summary) (p : param) :
  classify row p = Some Safe
  <-> between (fst (safe_ranges p)) (snd (safe_ranges p)) (get row p) = true.
Proof.
  unfold classify. split.
  - destruct (notna (get row p)); [|discriminate].
    destruct (between _ _ (get row p)); [reflexivity | discriminate].
  - intros H. rewrite (between_notna _ _ _ H), H. reflexivity.
Qed.

(** X8. The validator of the entry page and the classification of the
    learning dashboard use the same ranges: the four means of a summary row
    draw no warning from [validate_data] exactly when all four parameters
    classify as Safe, and then the overall verdict holds as well. NaN and
    infinite means included. *)
Theorem validator_agrees_with_classification (row : summary) :
  (validate_summary row = [] <-> all_safe row)
  /\ (validate_summary row = [] -> overall_safe row = true).
Proof.
  assert (Hiff : validate_summary row = [] <-> all_safe row).
  { unfold validate_summary, all_safe.
    rewrite Validator.validate_data_flags, Validator.flags_nil.
    rewrite !negb_false_iff. split.
    - intros (H1 & H2 & H3 & H4) p.
      apply classify_safe_between. destruct p; assumption.
    - intros H. repeat split.
      + apply (classify_safe_between row P_pH), H.
      + apply (classify_safe_between row Turbidity), H.
      + apply (classify_safe_between row Dissolved_Oxygen), H.
      + apply (classify_safe_between row Nitrate), H. }
  split; [exact Hiff|].
  intros Hv. apply Hiff in Hv. unfold overall_safe.
  pose proof (proj1 (classify_safe_between row P_pH) (Hv P_pH)) as H1.
  pose proof (proj1 (classify_safe_between row Turbidity) (Hv Turbidity))
    as H2.
  pose proof (proj1 (classify_safe_between row Dissolved_Oxygen)
                (Hv Dissolved_Oxygen)) as H3.
  pose proof (proj1 (classify_safe_between row Nitrate) (Hv Nitrate)) as H4.
  cbn [safe_ranges fst snd] in *. cbn [forallb].
  unfold between in H2, H4. apply andb_true_iff in H2, H4.
  rewrite H1, H3, (proj2 H2), (proj2 H4). reflexivity.
Qed.

Example agreement_on_nan :
  validate_summary (mkSummary nan f1 f8 f1) = [Validator.warn_pH]
  /\ classify (mkSummary nan f1 f8 f1) P_pH = None.
Proof. split; reflexivity. Qed.

End Agreement.

From Stdlib Require Import Permutation.

(* ===================================================================== *)
(** * Alerts and map markers (3_OrgUseData_Dashboard.py) *)
(* ===================================================================== *)

Module Report.
Import Float64.
Import Dashboard.

Local Open Scope string_scope.
Local Open Scope list_scope.

(** [safe_ranges] (lines 14-19). *)
Definition safe_ranges (c : column) : float * float :=
  match c with
  | pH => (f6_5, f8_5)
  | Turbidity => (f0, f5)
  | Dissolved_Oxygen => (f5, f14)
  | Nitrate => (f0, f10)
  end.

(** Line 45, [data[(data[param] < low) | (data[param] > high)]]: the rows
    kept in file order; both comparisons are false on NaN. *)
Definition exceed (param : column) (data : list row) : list row :=
  let '(low, high) := safe_ranges param in
  filter (fun r => SFltb (measure r param) low || SFltb high (measure r param))
    data.

(** [data] after lines 27-31. *)
Definition cleaned (str_to_num : string -> float) (raw : list raw_row)
  : list row :=
  dropna_all (map (coerce str_to_num) raw).

(** The safe ranges as intervals of rational numbers. *)
Definition safe_interval (c : column) : Q * Q :=
  match c with
  | pH => (13 # 2, 17 # 2)%Q
  | Turbidity => (0, 5)%Q
  | Dissolved_Oxygen => (5, 14)%Q
  | Nitrate => (0, 10)%Q
  end.

(** The value is a finite number in the inclusive safe range of its
    column. *)
Definition within (c : column) (x : float) : Prop :=
  in_interval (fst (safe_interval c)) (snd (safe_interval c)) x.

(** [zipcode in known_zipcode_coords] and [known_zipcode_coords[zipcode]];
    the table of this page is the one of the entry page. *)
Fixpoint lookup (zipcode : string)
  (table : list (string * Resolver.coord)) : option Resolver.coord :=
  match table with
  | [] => None
  | (z, location) :: rest =>
      if String.eqb zipcode z then Some location else lookup zipcode rest
  end.

(** A marker of the map: its place, the summary row that its popup prints
    (zip code and four means), and the colour of its icon. *)
Record marker : Type := mkMarker {
  location : Resolver.coord;
  popup : ZipSummary;
  color : string
}.

(** Line 113: green when the mean turbidity is at most 5; the comparison
    is false on NaN. *)
Definition marker_color (turbidity : float) : string :=
  if SFleb turbidity (snd (safe_ranges Turbidity)) then "green" else "red".

(** Lines 107-129: one marker for each summary row whose zip code is in
    the table. *)
Definition markers (summary : list ZipSummary) : list marker :=
  flat_map (fun row =>
              match lookup (summary_Zipcode row)
                      Resolver.known_zipcode_coords with
              | Some place =>
                  [mkMarker place row
                     (marker_color (summary_mean row Turbidity))]
              | None => []
              end) summary.

Definition marker_zipcode (m : marker) : string :=
  summary_Zipcode (popup m).

(** Rows of an unknown zip code, of a zip code without turbidity, and of
    two known zip codes. *)
Definition mixed_rows : list raw_row :=
  [ mkRaw (Some "95120") "2024-11-05" (cells (Num f7) (Num f6) Empty Empty);
    mkRaw (Some "94000") "2024-11-05" (cells (Num f7) (Num f1) Empty Empty);
    mkRaw (Some "95110") "2024-11-05" (cells (Num f8) (Num f1) Empty Empty);
    mkRaw (Some "95112") "2024-11-06" (cells (Num f6) Empty Empty Empty) ].

(** Two rows of one zip code with turbidity 0.1 and 9.9. *)
Definition turbidity_row (x : float) : raw_row :=
  mkRaw (Some "95110") "2024-11-05" (cells Empty (Num x) Empty Empty).

Definition two_turbidities : list raw_row :=
  [turbidity_row f0_1; turbidity_row f9_9].

(** Whether the zip code is in the table. *)
Definition known (z : string) : bool :=
  match lookup z Resolver.known_zipcode_coords with
  | Some _ => true
  | None => false
  end.

(** Rows with an infinite, a missing and an ordinary turbidity, each with
    the pH 7.0. *)
Definition cells_of (turbidity : float) (c : column) : float :=
  match c with
  | Turbidity => turbidity
  | _ => f7
  end.

Definition odd_rows : list row :=
  [ mkRow (Some "95110") "2024-11-05" (cells_of pos_inf);
    mkRow (Some "95110") "2024-11-06" (cells_of nan);
    mkRow (Some "95112") "2024-11-05" (cells_of f1);
    mkRow (Some "95112") "2024-11-06" (cells_of neg_inf);
    mkRow (Some "95113") "2024-11-06" (cells_of f6) ].

(** ** Alerts *)

Lemma column_ranges_denote (c : column) :
  denotes (fst (safe_ranges c)) (fst (safe_interval c))
  /\ denotes (snd (safe_ranges c)) (snd (safe_interval c)).
Proof. destruct c; repeat split. Qed.

Lemma exceed_filter (c : column) (data : list row) :
  exceed c data
  = filter (fun r => outside (fst (safe_ranges c)) (snd (safe_ranges c))
                       (measure r c)) data.
Proof. unfold exceed, outside. destruct (safe_ranges c). reflexivity. Qed.

Lemma outside_false_spec (c : column) (x : float) :
  is_float x = true ->
  outside (fst (safe_ranges c)) (snd (safe_ranges c)) x = false
  <-> is_nan x = true \/ within c x.
Proof.
  intros Vx. destruct (column_ranges_denote c) as [Dlo Dhi].
  pose proof (outside_spec _ _ _ _ x Dlo Dhi Vx) as Hout.
  pose proof (between_spec _ _ _ _ x Dlo Dhi Vx) as Hin.
  fold (within c x) in Hout, Hin.
  destruct (outside (fst (safe_ranges c)) (snd (safe_ranges c)) x).
  - destruct (proj1 Hout eq_refl) as [Hn Hw]. split; [discriminate|].
    intros [H | H]; [congruence | contradiction].
  - split; [|reflexivity]. intros _.
    destruct (is_nan x) eqn:Hn; [left; reflexivity|]. right.
    destruct (between (fst (safe_ranges c)) (snd (safe_ranges c)) x);
      [apply Hin; reflexivity|].
    assert (Hf : false = true); [|discriminate Hf].
    apply Hout. split; [reflexivity|].
    intros Hw. apply Hin in Hw. discriminate Hw.
Qed.

Lemma in_exceed (c : column) (data : list row) (r : row) :
  is_float (measure r c) = true ->
  In r (exceed c data)
  <-> In r data /\ is_nan (measure r c) = false /\ ~ within c (measure r c).
Proof.
  intros Vx. rewrite exceed_filter, filter_In.
  destruct (column_ranges_denote c) as [Dlo Dhi].
  rewrite (outside_spec _ _ _ _ (measure r c) Dlo Dhi Vx). reflexivity.
Qed.

Lemma not_within_inf (c : column) (x : float) :
  is_inf x = true -> is_nan x = false /\ ~ within c x.
Proof.
  intros Hx. destruct x; try discriminate Hx.
  split; [reflexivity | intros []].
Qed.

(** X9. For a column of binary64 values, the alert table of a parameter
    lists, in file order, exactly the rows whose value for it is not NaN and
    is not a finite number of the inclusive safe range: a row with NaN is
    never listed, a row with an infinite value always is. So "All values
    within safe limits." is shown exactly when every value of that column is
    NaN or in range. *)
Theorem exceed_spec (c : column) (data : list row) :
  (forall r, In r data -> is_float (measure r c) = true) ->
  (forall r, In r (exceed c data)
     <-> In r data /\ is_nan (measure r c) = false
         /\ ~ within c (measure r c))
  /\ (forall r, is_nan (measure r c) = true -> ~ In r (exceed c data))
  /\ (forall r, In r data -> is_inf (measure r c) = true ->
        In r (exceed c data))
  /\ (exceed c data = []
      <-> forall r, In r data ->
            is_nan (measure r c) = true \/ within c (measure r c))
  /\ (exists kept,
        exceed c data = filter kept data
        /\ forall r, In r data ->
             (kept r = false
              <-> is_nan (measure r c) = true \/ within c (measure r c))).
Proof.
  intros V.
  assert (Hin : forall r, In r (exceed c data)
                  <-> In r data /\ is_nan (measure r c) = false
                      /\ ~ within c (measure r c)).
  { intros r. split.
    - intros H. assert (Hd : In r data).
      { rewrite exceed_filter in H. apply filter_In in H. apply H. }
      apply (in_exceed c data r (V r Hd)). exact H.
    - intros H. apply (in_exceed c data r (V r (proj1 H))). exact H. }
  split; [exact Hin|]. split.
  { intros r Hn H. apply Hin in H. destruct H as (_ & Hn' & _). congruence. }
  split.
  { intros r Hd Hi. apply Hin. split; [exact Hd|].
    apply not_within_inf. exact Hi. }
  split.
  - rewrite exceed_filter. split.
    + intros Hnil r Hd. apply (outside_false_spec c _ (V r Hd)).
      destruct (outside _ _ (measure r c)) eqn:Ho; [|reflexivity].
      assert (Hr : In r (filter
                           (fun r => outside (fst (safe_ranges c))
                                       (snd (safe_ranges c)) (measure r c))
                           data))
        by (apply filter_In; split; assumption).
      rewrite Hnil in Hr. destruct Hr.
    + intros H.
      destruct (filter _ data) as [| r rest] eqn:He; [reflexivity|].
      assert (Hr : In r (filter
                           (fun r => outside (fst (safe_ranges c))
                                       (snd (safe_ranges c)) (measure r c))
                           data))
        by (rewrite He; left; reflexivity).
      apply filter_In in Hr. destruct Hr as [Hd Ho].
      apply (outside_false_spec c _ (V r Hd)) in H; [|exact Hd].
      congruence.
  - eexists. split; [apply exceed_filter|].
    intros r Hd. apply (outside_false_spec c _ (V r Hd)).
Qed.

Lemma exceed_spec_witness :
  (forall r, In r odd_rows -> is_float (measure r Turbidity) = true)
  /\ (exceed Turbidity odd_rows = []
      <-> forall r, In r odd_rows ->
            is_nan (measure r Turbidity) = true
            \/ within Turbidity (measure r Turbidity)).
Proof.
  assert (V : forall r, In r odd_rows -> is_float (measure r Turbidity) = true).
  { intros r Hr. cbn in Hr.
    repeat (destruct Hr as [<- | Hr]; [reflexivity|]). destruct Hr. }
  split; [exact V|].
  exact (proj1 (proj2 (proj2 (proj2 (exceed_spec Turbidity odd_rows V))))).
Defined.

Example exceed_odd_rows :
  map Date (exceed Turbidity odd_rows)
  = ["2024-11-05"; "2024-11-06"; "2024-11-06"]
  /\ map Zipcode (exceed Turbidity odd_rows)
     = [Some "95110"; Some "95112"; Some "95113"].
Proof. split; reflexivity. Qed.

(** ** Map markers *)

Lemma lookup_in (zipcode : string) (table : list (string * Resolver.coord))
  (place : Resolver.coord) :
  lookup zipcode table = Some place -> In zipcode (map fst table).
Proof.
  induction table as [| [z p0] rest IH]; cbn [lookup map fst In];
    [discriminate|].
  destruct (String.eqb_spec zipcode z) as [-> | _]; [left; reflexivity|].
  intros H. right. apply IH. exact H.
Qed.

Lemma in_lookup (zipcode : string) (table : list (string * Resolver.coord)) :
  In zipcode (map fst table) -> exists place, lookup zipcode table = Some place.
Proof.
  induction table as [| [z p0] rest IH]; cbn [lookup map fst In];
    [intros []|].
  destruct (String.eqb_spec zipcode z) as [-> | Hne].
  - intros _. exists p0. reflexivity.
  - intros [Heq | Hin]; [congruence | apply IH; exact Hin].
Qed.

Lemma in_markers (summary : list ZipSummary) (m : marker) :
  In m (markers summary)
  <-> exists row place,
        In row summary
        /\ lookup (summary_Zipcode row) Resolver.known_zipcode_coords
           = Some place
        /\ m = mkMarker place row (marker_color (summary_mean row Turbidity)).
Proof.
  unfold markers. rewrite in_flat_map. split.
  - intros (row & Hin & Hm).
    destruct (lookup (summary_Zipcode row) Resolver.known_zipcode_coords)
      as [place|] eqn:Hl; [|destruct Hm].
    destruct Hm as [<- | []]. exists row, place. auto.
  - intros (row & place & Hin & Hl & ->). exists row.
    split; [exact Hin|]. rewrite Hl. left. reflexivity.
Qed.

Lemma marker_zipcodes (summary : list ZipSummary) :
  map marker_zipcode (markers summary)
  = filter known (map summary_Zipcode summary).
Proof.
  induction summary as [| row rest IH]; [reflexivity|].
  cbn [markers flat_map map filter]. fold (markers rest). unfold known at 1.
  destruct (lookup (summary_Zipcode row) Resolver.known_zipcode_coords);
    cbn [app map marker_zipcode popup]; rewrite <- IH; reflexivity.
Qed.

Lemma marker_color_green (turbidity : float) :
  marker_color turbidity = "green" <-> SFleb turbidity f5 = true.
Proof.
  unfold marker_color. cbn [safe_ranges snd].
  destruct (SFleb turbidity f5); split; (reflexivity || discriminate).
Qed.

(** X11. The map has one marker for each summary row whose zip code is
    one of the seven known ones and none for the other rows: at most seven
    markers, no two for the same zip code, each at the place of its zip
    code. A marker is green exactly when the binary64 mean turbidity of its
    zip code compares at most 5.0, that is, when it is minus infinity or a
    finite number at most 5; it is red otherwise, also when that mean is
    NaN. *)
Theorem markers_spec (str_to_num : string -> float)
  (raw : list raw_row) :
  let summary := zipcode_summary str_to_num raw in
  (List.length (markers summary) <= 7)%nat
  /\ NoDup (map marker_zipcode (markers summary))
  /\ (forall row, In row summary ->
        In (summary_Zipcode row) (map fst Resolver.known_zipcode_coords) ->
        exists m, In m (markers summary) /\ popup m = row)
  /\ (forall m, In m (markers summary) ->
        In (popup m) summary
        /\ lookup (marker_zipcode m) Resolver.known_zipcode_coords
           = Some (location m)
        /\ (color m = "green"
            <-> SFleb (summary_mean (popup m) Turbidity) f5 = true)
        /\ (is_float (summary_mean (popup m) Turbidity) = true ->
            (color m = "green"
             <-> Home.at_most 5 (summary_mean (popup m) Turbidity)))
        /\ (is_nan (summary_mean (popup m) Turbidity) = true ->
            color m = "red")
        /\ (color m = "green" \/ color m = "red")).
Proof.
  intros summary.
  assert (Hnd : NoDup (map marker_zipcode (markers summary))).
  { rewrite marker_zipcodes. apply NoDup_filter.
    unfold summary, zipcode_summary. rewrite summary_zipcodes.
    apply ascending_NoDup, group_keys_ascending. }
  split; [|split; [exact Hnd | split]].
  - rewrite <- (length_map marker_zipcode).
    change 7%nat
      with (List.length (map fst Resolver.known_zipcode_coords)).
    apply NoDup_incl_length; [exact Hnd|].
    intros z Hz. rewrite marker_zipcodes in Hz.
    apply filter_In in Hz. destruct Hz as [_ Hz]. unfold known in Hz.
    destruct (lookup z Resolver.known_zipcode_coords) as [place|] eqn:Hl;
      [|discriminate].
    eapply lookup_in; eauto.
  - intros row Hin Hknown. apply in_lookup in Hknown.
    destruct Hknown as [place Hl].
    exists (mkMarker place row (marker_color (summary_mean row Turbidity))).
    split; [|reflexivity]. apply in_markers. exists row, place. auto.
  - intros m Hm. apply in_markers in Hm.
    destruct Hm as (row & place & Hin & Hl & ->).
    cbn [popup location color marker_zipcode].
    split; [exact Hin|]. split; [exact Hl|].
    split; [apply marker_color_green|]. split.
    { intros Vx. rewrite marker_color_green.
      apply (Home.SFleb_at_most 5 f5 _ denotes_f5 Vx). }
    split.
    { intros Hn. destruct (summary_mean row Turbidity); try discriminate Hn.
      reflexivity. }
    unfold marker_color. destruct (SFleb _ _); auto.
Qed.

Example markers_of_mixed_rows :
  map (fun m => (marker_zipcode m, color m))
    (markers (zipcode_summary no_number mixed_rows))
  = [("95110", "green"); ("95112", "red"); ("95120", "red")].
Proof. vm_compute. reflexivity. Qed.

(** The colour follows the rounded mean: the turbidities 0.1 and 9.9 of
    one zip code have the binary64 mean 5.0 and a green marker, while the
    arithmetic mean of the two stored numbers is above 5. *)
Example marker_green_by_rounding :
  map (fun m => (summary_mean (popup m) Turbidity, color m))
    (markers (zipcode_summary no_number two_turbidities))
  = [(f5, "green")]
  /\ (5 < (value f0_1 + value f9_9) / 2)%Q.
Proof. split; vm_compute; reflexivity. Qed.

(** ** The zip codes of the summary and the order of the rows *)

Lemma ascending_head_least (k : string) (ks : list string) (x : string) :
  ascending (k :: ks) -> In x (k :: ks) ->
  x = k \/ String.compare k x = Lt.
Proof.
  unfold ascending. intros Hs [<- | Hin]; [left; reflexivity|].
  inversion Hs as [| ? ? _ Hall]; subst.
  rewrite Forall_forall in Hall. right. apply Hall. exact Hin.
Qed.

Lemma ascending_same_members (l1 l2 : list string) :
  ascending l1 -> ascending l2 ->
  (forall x, In x l1 <-> In x l2) ->
  l1 = l2.
Proof.
  revert l2. induction l1 as [| a l1 IH]; intros [| b l2] H1 H2 Hm.
  - reflexivity.
  - exfalso. apply (proj2 (Hm b)). left. reflexivity.
  - exfalso. apply (proj1 (Hm a)). left. reflexivity.
  - assert (Hab : a = b).
    { destruct (ascending_head_least b l2 a H2
                  (proj1 (Hm a) (or_introl eq_refl))) as [E | Hba];
        [exact E|].
      destruct (ascending_head_least a l1 b H1
                  (proj2 (Hm b) (or_introl eq_refl))) as [E | Hab];
        [symmetry; exact E|].
      pose proof (compare_lt_trans _ _ _ Hab Hba) as Haa.
      rewrite compare_refl in Haa. discriminate. }
    subst b. f_equal.
    pose proof (ascending_NoDup _ H1) as N1.
    pose proof (ascending_NoDup _ H2) as N2.
    inversion N1 as [| ? ? Hn1 _]; inversion N2 as [| ? ? Hn2 _]; subst.
    unfold ascending in H1, H2.
    inversion H1 as [| ? ? H1' _]; inversion H2 as [| ? ? H2' _]; subst.
    apply IH; try assumption.
    intros x. split; intros Hx.
    + destruct (proj1 (Hm x) (or_intror Hx)) as [<- | Hx']; [|exact Hx'].
      contradiction.
    + destruct (proj2 (Hm x) (or_intror Hx)) as [<- | Hx']; [|exact Hx'].
      contradiction.
Qed.

Section Order.

Variable str_to_num : string -> float.

Lemma cleaned_permutation_in (raw raw' : list raw_row) (r : row) :
  Permutation raw raw' ->
  In r (cleaned str_to_num raw) -> In r (cleaned str_to_num raw').
Proof.
  unfold cleaned, dropna_all. intros Hp Hin.
  apply filter_In in Hin. destruct Hin as [Hin Hk].
  apply filter_In. split; [|exact Hk].
  apply in_map_iff in Hin. destruct Hin as (r0 & <- & Hin).
  apply in_map. eapply Permutation_in; eauto.
Qed.

Lemma summary_zipcodes_permutation (raw raw' : list raw_row) :
  Permutation raw raw' ->
  map summary_Zipcode (zipcode_summary str_to_num raw)
  = map summary_Zipcode (zipcode_summary str_to_num raw').
Proof.
  intros Hp. unfold zipcode_summary. rewrite !summary_zipcodes.
  apply ascending_same_members; try apply group_keys_ascending.
  intros z. rewrite !in_group_keys.
  split; intros (r & Hin & Hz); exists r; (split; [|exact Hz]).
  - exact (cleaned_permutation_in raw raw' r Hp Hin).
  - exact (cleaned_permutation_in raw' raw r (Permutation_sym Hp) Hin).
Qed.

End Order.

(** X13. The zip codes of the summary, and so those of the map markers, do
    not depend on the order of the rows in the file: two files with the same
    rows in any order give the same list of zip codes, and for each zip code
    and column the same numbers to average, up to their order. (The means
    themselves are sums in file order and can differ in the last bit, see
    [means_depend_on_order].) *)
Theorem zipcode_summary_order_independent
  (str_to_num : string -> float) (raw raw' : list raw_row) :
  Permutation raw raw' ->
  map summary_Zipcode (zipcode_summary str_to_num raw)
  = map summary_Zipcode (zipcode_summary str_to_num raw')
  /\ map marker_zipcode (markers (zipcode_summary str_to_num raw))
     = map marker_zipcode (markers (zipcode_summary str_to_num raw'))
  /\ (forall c z,
        Permutation (numeric_values str_to_num c z raw)
          (numeric_values str_to_num c z raw')).
Proof.
  intros Hp.
  pose proof (summary_zipcodes_permutation str_to_num raw raw' Hp) as Hz.
  split; [exact Hz|]. split.
  - rewrite !marker_zipcodes, Hz. reflexivity.
  - intros c z. unfold numeric_values. apply Permutation_flat_map. exact Hp.
Qed.

Lemma zipcode_summary_order_independent_witness :
  Permutation three_rows three_rows_reordered
  /\ map summary_Zipcode (zipcode_summary no_number three_rows)
     = map summary_Zipcode (zipcode_summary no_number three_rows_reordered).
Proof.
  assert (Hp : Permutation three_rows three_rows_reordered).
  { unfold three_rows, three_rows_reordered.
    apply (Permutation_cons_app [pH_row f7_2; pH_row f8_2] [] (pH_row f6_9)).
    apply Permutation_refl. }
  split; [exact Hp|].
  exact (proj1 (zipcode_summary_order_independent no_number three_rows
                  three_rows_reordered Hp)).
Defined.

(** The same three rows in two orders: the same zip code, two different
    mean pH values. *)
Example means_depend_on_order :
  map summary_Zipcode (zipcode_summary no_number three_rows) = ["95110"]
  /\ map summary_Zipcode (zipcode_summary no_number three_rows_reordered)
     = ["95110"]
  /\ map (fun s => summary_mean s pH) (zipcode_summary no_number three_rows)
     <> map (fun s => summary_mean s pH)
          (zipcode_summary no_number three_rows_reordered).
Proof.
  split; [reflexivity|]. split; [reflexivity|].
  intros H. vm_compute in H. discriminate H.
Qed.

End Report.

(* ===================================================================== *)
(** * A submission and its entry in the list (2_Manual_Input.py) *)
(* ===================================================================== *)

Module EntryFlow.
Import Float64.
Import Py.
Import Store.
Import Entry.

Local Open Scope string_scope.
Local Open Scope list_scope.






(** After an accepted submission and its deletion, a row that was in the
    file with the zip text NA has an empty zip field. *)
Example submit_then_delete_rewrites :
  snd (delete_entry 1
         (snd (submit "95112" "2024-11-06" f8 f1 f9 f5 [sample_NA])))
  = [mkReading "" "2024-11-05" f7 f1 f8 f1].
Proof. reflexivity. Qed.

End EntryFlow.
